(** * TrafficOS acquisition pipeline: [services/trafficService.ts]

    A shallow embedding of the [TrafficService] class (the orchestrator
    [fetchLiveCameras], the two parsers [parseArcGisJson] and
    [parseTrafficXml], and [normalizeImageUrl]) together with the
    properties its specification states about it.

    Conventions.
    - A JavaScript string is a Rocq [string]; each character stands for one
      code unit below 256.
    - A JavaScript number is a binary64 [float]; what is proved about its
      arithmetic follows from the library's specification of the
      primitive operations.
    - What the class obtains from the runtime (the network, [DOMParser],
      [parseFloat], [Math.random], the clock, number printing) is a field
      of the record [Host]; every theorem quantifies over the host.
    - [async] code is sequential here: each [await] is a call.  A call may
      throw, reads the random source and the clock, and leaves a trace of
      console lines and runtime calls; the monad [M] threads all three. *)

From Stdlib Require Import String Ascii List ZArith Lia Bool.
From Stdlib Require Import PrimFloat FloatOps SpecFloat FloatAxioms Uint63.
From Stdlib Require Import Reals Lra.
Import ListNotations.
#[local] Set Warnings "-register-all,-inexact-float".
Local Open Scope list_scope.
Local Open Scope string_scope.
Local Open Scope nat_scope.

(* ================================================================== *)
(** ** String methods of the runtime used by the service *)
(* ================================================================== *)

Module JsString.

(** [s.startsWith(p)] *)
Fixpoint startsWith (s p : string) {struct p} : bool :=
  match p with
  | EmptyString => true
  | String a p' =>
      match s with
      | EmptyString => false
      | String b s' => Ascii.eqb a b && startsWith s' p'
      end
  end.

(** [s.includes(p)] *)
Fixpoint includes (s p : string) : bool :=
  startsWith s p ||
  match s with
  | EmptyString => false
  | String _ s' => includes s' p
  end.

(** [s] without its first [n] characters. *)
Fixpoint skip (n : nat) (s : string) : string :=
  match n, s with
  | O, _ => s
  | S _, EmptyString => EmptyString
  | S n', String _ s' => skip n' s'
  end.

(** [s.replace(pat, rep)] for a string pattern: only the first
    occurrence is replaced ([rep] holds no [$] in this file). *)
Fixpoint replace (s pat rep : string) : string :=
  if startsWith s pat then rep ++ skip (String.length pat) s
  else match s with
       | EmptyString => EmptyString
       | String c s' => String c (replace s' pat rep)
       end.

(** White space of [String.prototype.trim] among code units below 256:
    TAB, LF, VT, FF, CR, SP and NBSP. *)
Definition isWhite (c : ascii) : bool :=
  let n := nat_of_ascii c in
  ((9 <=? n) && (n <=? 13)) || (n =? 32) || (n =? 160).

Fixpoint trimStart (s : string) : string :=
  match s with
  | EmptyString => EmptyString
  | String c s' => if isWhite c then trimStart s' else s
  end.

(** Drops the trailing white space: a character is kept when it is not
    white or something is kept after it. *)
Fixpoint trimEnd (s : string) : string :=
  match s with
  | EmptyString => EmptyString
  | String c s' =>
      match trimEnd s' with
      | EmptyString => if isWhite c then EmptyString else String c EmptyString
      | t => String c t
      end
  end.

(** [s.trim()] *)
Definition trim (s : string) : string := trimEnd (trimStart s).

Definition isDigit (c : ascii) : bool :=
  let n := nat_of_ascii c in (48 <=? n) && (n <=? 57).

(** [/^\d+\.jpg$/.test(s)]; [seen] records that a digit was read. *)
Fixpoint digitsJpg (seen : bool) (s : string) : bool :=
  match s with
  | EmptyString => false
  | String c s' =>
      if isDigit c then digitsJpg true s'
      else seen && String.eqb s ".jpg"
  end.

(** [s.substr(start, len)] for non-negative arguments. *)
Definition substr (s : string) (start len : nat) : string :=
  String.substring start len s.

Definition hexDigit (n : nat) : ascii :=
  ascii_of_nat (if n <? 10 then 48 + n else 55 + n).

Definition percent (n : nat) : string :=
  String "%" (String (hexDigit (n / 16)) (String (hexDigit (n mod 16)) EmptyString)).

(** Characters [encodeURIComponent] leaves alone: letters, digits and
    [- _ . ! ~ * ' ( )]. *)
Definition unreserved (c : ascii) : bool :=
  let n := nat_of_ascii c in
  ((65 <=? n) && (n <=? 90)) || ((97 <=? n) && (n <=? 122)) || isDigit c ||
  existsb (Nat.eqb n) [45; 95; 46; 33; 126; 42; 39; 40; 41].

(** [encodeURIComponent(s)]: the UTF-8 bytes of every other character,
    percent-escaped (two bytes for a code unit in 128..255). *)
Fixpoint encodeURIComponent (s : string) : string :=
  match s with
  | EmptyString => EmptyString
  | String c s' =>
      let n := nat_of_ascii c in
      (if unreserved c then String c EmptyString
       else if n <? 128 then percent n
       else percent (192 + n / 64) ++ percent (128 + n mod 64))
      ++ encodeURIComponent s'
  end.

(** Decimal digits of a natural number ([fuel] bounds the digits). *)
Fixpoint natDigits (fuel n : nat) (acc : string) : string :=
  match fuel with
  | O => acc
  | S fuel' =>
      let acc' := String (ascii_of_nat (48 + n mod 10)) acc in
      if n <? 10 then acc' else natDigits fuel' (n / 10) acc'
  end.

(** [String(n)] for a natural number [n]. *)
Definition ofNat (n : nat) : string := natDigits (S n) n EmptyString.

End JsString.
Import JsString.

(* ================================================================== *)
(** ** Numbers and values of the runtime *)
(* ================================================================== *)

Module JsNumber.

Definition isNaN (x : float) : bool := negb (PrimFloat.eqb x x).

(** [ToBoolean] of a number: false for [NaN], [+0] and [-0]. *)
Definition truthy (x : float) : bool :=
  negb (isNaN x) && negb (PrimFloat.eqb x 0%float).

(** The integer part towards minus infinity of a finite number. *)
Definition floorZ (x : float) : option Z :=
  match Prim2SF x with
  | S754_zero _ => Some 0%Z
  | S754_finite s m e =>
      let v := if s then Z.neg m else Z.pos m in
      Some (if (0 <=? e)%Z then Z.shiftl v e else Z.shiftr v (Z.opp e))
  | S754_infinity _ | S754_nan => None
  end.

Definition ofZ (z : Z) : float :=
  if (z <? 0)%Z then PrimFloat.opp (PrimFloat.of_uint63 (Uint63.of_Z (Z.opp z)))
  else PrimFloat.of_uint63 (Uint63.of_Z z).

(** [Math.floor(x)]: [x] itself when it is zero, infinite, [NaN] or has
    no fractional bits. *)
Definition floor (x : float) : float :=
  match Prim2SF x with
  | S754_finite _ _ e =>
      if (0 <=? e)%Z then x
      else match floorZ x with Some z => ofZ z | None => x end
  | _ => x
  end.

(** The array index a number denotes when used as a property key:
    a non-negative integer. *)
Definition toIndex (x : float) : option nat :=
  match floorZ x with
  | Some z => if PrimFloat.eqb (floor x) x && (0 <=? z)%Z
              then Some (Z.to_nat z) else None
  | None => None
  end.

End JsNumber.

(** Values a JSON payload holds, and [undefined]. *)
Inductive jsval : Type :=
| JUndefined
| JNull
| JBool (b : bool)
| JNum (x : float)
| JStr (s : string)
| JArr (items : list jsval)
| JObj (fields : list (string * jsval)).

(** What a [throw] carries: every exception raised in the service is an
    error object of the runtime, with a name and a message. *)
Record JsError : Type := mkError { errName : string; message : string }.

Definition TypeError (m : string) : JsError := mkError "TypeError" m.

Inductive Result (A : Type) : Type :=
| Ok (a : A)
| Throw (e : JsError).
Arguments Ok {A} a.
Arguments Throw {A} e.

(** Sequencing of computations that may throw. *)
Definition bindR {A B} (r : Result A) (k : A -> Result B) : Result B :=
  match r with
  | Ok a => k a
  | Throw e => Throw e
  end.

Notation "x <~ r ;; k" := (bindR r (fun x => k))
  (at level 61, r at next level, right associativity).

Module JsValue.

(** [ToBoolean] *)
Definition truthy (v : jsval) : bool :=
  match v with
  | JUndefined | JNull => false
  | JBool b => b
  | JNum x => JsNumber.truthy x
  | JStr s => negb (String.eqb s "")
  | JArr _ | JObj _ => true
  end.

Fixpoint lookup (k : string) (fields : list (string * jsval)) : jsval :=
  match fields with
  | [] => JUndefined
  | (k', v) :: rest => if String.eqb k k' then v else lookup k rest
  end.

(** [v.k] for a data key [k] (none of those read by the service is a
    builtin property): throws on [undefined] and [null], reads the field
    of an object, and is [undefined] on every other value. *)
Definition get (v : jsval) (k : string) : Result jsval :=
  match v with
  | JUndefined =>
      Throw (TypeError ("Cannot read properties of undefined (reading '" ++ k ++ "')"))
  | JNull =>
      Throw (TypeError ("Cannot read properties of null (reading '" ++ k ++ "')"))
  | JObj fields => Ok (lookup k fields)
  | _ => Ok JUndefined
  end.

(** [v[i]] for a literal index [i]. *)
Definition at_ (v : jsval) (i : nat) : Result jsval :=
  match v with
  | JUndefined =>
      Throw (TypeError ("Cannot read properties of undefined (reading '" ++ ofNat i ++ "')"))
  | JNull =>
      Throw (TypeError ("Cannot read properties of null (reading '" ++ ofNat i ++ "')"))
  | JArr items => Ok (nth i items JUndefined)
  | JStr s => Ok (match String.get i s with
                  | Some c => JStr (String c EmptyString)
                  | None => JUndefined
                  end)
  | JObj fields => Ok (lookup (ofNat i) fields)
  | _ => Ok JUndefined
  end.

(** [a === "lit"] *)
Definition strictEqStr (v : jsval) (lit : string) : bool :=
  match v with JStr s => String.eqb s lit | _ => false end.

Definition hasKey (k : string) (fields : list (string * jsval)) : bool :=
  existsb (fun kv => String.eqb k (fst kv)) fields.

(** [ToString] of a payload value, as a template literal applies it;
    [num] prints numbers.  An object prints as [[object Object]] unless it
    has a [toString] entry of its own, which is not callable and leaves no
    way to convert it; an array joins its items with commas, [null] and
    [undefined] items printing as nothing. *)
Fixpoint toStringR (num : float -> string) (v : jsval) : Result string :=
  match v with
  | JUndefined => Ok "undefined"
  | JNull => Ok "null"
  | JBool b => Ok (if b then "true" else "false")
  | JNum x => Ok (num x)
  | JStr s => Ok s
  | JArr items =>
      parts <~ (fix each (l : list jsval) : Result (list string) :=
                  match l with
                  | [] => Ok []
                  | i :: l' =>
                      p <~ match i with
                           | JUndefined | JNull => Ok ""
                           | _ => toStringR num i
                           end ;;
                      ps <~ each l' ;;
                      Ok (p :: ps)
                  end) items ;;
      Ok (String.concat "," parts)
  | JObj fields =>
      if hasKey "toString" fields
      then Throw (TypeError "Cannot convert object to primitive value")
      else Ok "[object Object]"
  end.

(** [ToPrimitive]: an array or an object converts through its
    [toString]; every other value is a primitive already. *)
Definition toPrimitive (num : float -> string) (v : jsval) : Result jsval :=
  match v with
  | JArr _ | JObj _ => s <~ toStringR num v ;; Ok (JStr s)
  | _ => Ok v
  end.

End JsValue.
Import JsValue.

(* ================================================================== *)
(** ** The markup tree [DOMParser] returns *)
(* ================================================================== *)

Inductive xnode : Type :=
| XElem (tag : string) (children : list xnode)
| XText (data : string).

(** The two selector shapes the parser uses: [tag] and [parent > tag]. *)
Inductive selector : Type :=
| SelTag (t : string)
| SelChild (parent t : string).

Module Dom.

(** The elements of the subtree at [n] in document order, each with the
    tag of its parent element ([None] for the document element). *)
Fixpoint walk (parent : option string) (n : xnode) : list (option string * xnode) :=
  match n with
  | XText _ => []
  | XElem t cs => (parent, n) :: flat_map (walk (Some t)) cs
  end.

Definition tagOf (n : xnode) : string :=
  match n with XElem t _ => t | XText _ => "" end.

Definition matches (sel : selector) (e : option string * xnode) : bool :=
  match sel with
  | SelTag t => String.eqb (tagOf (snd e)) t
  | SelChild p t =>
      String.eqb (tagOf (snd e)) t &&
      match fst e with Some q => String.eqb q p | None => false end
  end.

(** [doc.getElementsByTagName(t)] *)
Definition getElementsByTagName (doc : xnode) (t : string) : list xnode :=
  map snd (filter (matches (SelTag t)) (walk None doc)).

(** [doc.querySelectorAll("a, b")] *)
Definition querySelectorAll (doc : xnode) (sels : list selector) : list xnode :=
  map snd (filter (fun e => existsb (fun s => matches s e) sels) (walk None doc)).

(** [node.querySelector(sel)]: the first descendant of [node] that
    matches, the selector being read against the whole document. *)
Definition querySelector (node : xnode) (sel : selector) : option xnode :=
  match node with
  | XText _ => None
  | XElem t cs =>
      option_map snd (find (matches sel) (flat_map (walk (Some t)) cs))
  end.

(** [node.textContent] *)
Fixpoint textContent (n : xnode) : string :=
  match n with
  | XText d => d
  | XElem _ cs => String.concat "" (map textContent cs)
  end.

End Dom.

(* ================================================================== *)
(** ** The runtime the service runs on *)
(* ================================================================== *)

(** A [Response]: [json] and [text] are the outcomes of [res.json()] and
    [res.text()], each of which may reject. *)
Module Response.
Record t : Type := make {
  ok : bool;
  status : nat;
  json : Result jsval;
  text : Result string
}.
End Response.

Record Host : Type := mkHost {
  (** [fetch(url, {signal})] with the signal aborted after [timeout] ms:
      the response, or the error the promise rejects with (a network
      failure, or the abort). *)
  fetch : string -> N -> Result Response.t;
  (** [new DOMParser().parseFromString(s, "text/xml")]: the document
      element; for ill-formed input a tree holding a [parsererror]. *)
  parseFromString : string -> xnode;
  parseFloat : string -> float;
  (** the [k]-th value of [Math.random()] *)
  random : nat -> float;
  (** the time value of the [k]-th reading of the clock *)
  clock : nat -> float;
  (** [String(x)] and [x.toString(36)] of a number *)
  numberToString : float -> string;
  toString36 : float -> string;
  (** [new Date(t).toLocaleTimeString()] *)
  toLocaleTimeString : float -> string;
  (** [new Date(v).toLocaleTimeString([], {hour: '2-digit', minute: '2-digit'})],
      for a value [v] that converts to a primitive *)
  toLocaleTimeHM : jsval -> string
}.

Inductive event : Type :=
| ConsoleLog (line : string)
| ConsoleWarn (line : string)
| ConsoleError (line : string)
| FetchCall (url : string)
| DomParse (input : string).

(** What a call reads and leaves behind: the number of random values and
    clock readings consumed so far, and the trace, oldest event first. *)
Record State : Type := mkState {
  rnd : nat;
  clk : nat;
  trace : list event
}.

Definition M (A : Type) : Type := State -> Result A * State.

Definition ret {A} (a : A) : M A := fun s => (Ok a, s).

Definition throw {A} (e : JsError) : M A := fun s => (Throw e, s).

Definition bind {A B} (m : M A) (k : A -> M B) : M B :=
  fun s => match m s with
           | (Ok a, s') => k a s'
           | (Throw e, s') => (Throw e, s')
           end.

(** [try { body } catch (e) { handler(e) }] *)
Definition tryCatch {A} (body : M A) (handler : JsError -> M A) : M A :=
  fun s => match body s with
           | (Ok a, s') => (Ok a, s')
           | (Throw e, s') => handler e s'
           end.

Definition liftR {A} (r : Result A) : M A := fun s => (r, s).

Definition emit (e : event) : M unit :=
  fun s => (Ok tt, mkState (rnd s) (clk s) (trace s ++ [e])).

Notation "x <- m ;; k" := (bind m (fun x => k))
  (at level 61, m at next level, right associativity).
Notation "m ;;; k" := (bind m (fun _ => k))
  (at level 61, right associativity).

Fixpoint mapM {A B} (f : A -> M B) (l : list A) : M (list B) :=
  match l with
  | [] => ret []
  | a :: l' => b <- f a ;; bs <- mapM f l' ;; ret (b :: bs)
  end.

(** [arr[Math.floor(r * arr.length)]]; [undefined] is [None]. *)
Definition atRandom {A} (arr : list A) (r : float) : option A :=
  let i := JsNumber.floor (PrimFloat.mul r (JsNumber.ofZ (Z.of_nat (List.length arr)))) in
  match JsNumber.toIndex i with
  | Some n => nth_error arr n
  | None => None
  end.

Section Runtime.

Variable h : Host.

(** [Math.random()] *)
Definition Math_random : M float :=
  fun s => (Ok (random h (rnd s)), mkState (S (rnd s)) (clk s) (trace s)).

(** [Date.now()], also the time value of [new Date()] *)
Definition Date_now : M float :=
  fun s => (Ok (clock h (clk s)), mkState (rnd s) (S (clk s)) (trace s)).

(** [arr[Math.floor(Math.random() * arr.length)]] *)
Definition pick {A} (arr : list A) : M (option A) :=
  r <- Math_random ;; ret (atRandom arr r).

(** [base + Math.floor(Math.random() * n)] *)
Definition jitter (base n : float) : M float :=
  r <- Math_random ;;
  ret (PrimFloat.add base (JsNumber.floor (PrimFloat.mul r n))).

End Runtime.

(* ================================================================== *)
(** ** [types.ts] and the constants of the service *)
(* ================================================================== *)

Inductive Severity : Type := low | medium | high | critical.
Inductive Trend : Type := improving | stable | escalating.

(** A camera record as it exists at run time.  The fields the ArcGIS
    parser copies from the payload unchecked hold any value; a severity or
    trend read past the end of its candidate array is [None]. *)
Record TrafficCamera : Type := mkCamera {
  id : string;
  name : jsval;
  description : jsval;
  imageUrl : string;
  region : jsval;
  latitude : jsval;
  longitude : jsval;
  direction : jsval;
  journeyLegs : list string;
  type : string;
  status : string;
  source : string;
  severity : option Severity;
  trend : option Trend;
  confidence : float;
  lastUpdate : string
}.

Definition BASE_TRAFFIC_URL : string := "https://trafficnz.info".
Definition ARCGIS_ENDPOINT : string :=
  "https://services.arcgis.com/XTtANUDT8Va4DLwI/ArcGIS/rest/services/LiveCamerasNZTA_Public_View/FeatureServer/0/query?where=1%3D1&outFields=*&f=geojson".
Definition XML_ENDPOINT : string :=
  "https://trafficnz.info/service/traffic/rest/4/cameras/all".

(** The static dataset; its three time stamps are taken when the module
    is loaded, from the first three readings of the clock. *)
Definition FALLBACK_CAMERAS (h : Host) : list TrafficCamera :=
  [ mkCamera "FB-AKL-01" (JStr "SH1: Oteha Valley Rd")
      (JStr "Northbound coverage - Backup Uplink")
      "https://www.trafficnz.info/camera/images/20.jpg" (JStr "Auckland")
      (JNum (-36.723)%float) (JNum 174.706%float) (JStr "North")
      ["Auckland - North"] "feed" "Operational" "Static Matrix Fallback"
      (Some low) (Some stable) 99%float (toLocaleTimeString h (clock h 0));
    mkCamera "FB-AKL-02" (JStr "SH1: Harbour Bridge")
      (JStr "Clip-on lanes - Backup Uplink")
      "https://www.trafficnz.info/camera/images/24.jpg" (JStr "Auckland")
      (JNum (-36.83)%float) (JNum 174.75%float) (JStr "South")
      ["Auckland - Central"] "feed" "Operational" "Static Matrix Fallback"
      (Some low) (Some stable) 99%float (toLocaleTimeString h (clock h 1));
    mkCamera "FB-WLG-01" (JStr "SH1: Terrace Tunnel")
      (JStr "Tunnel approach - Backup Uplink")
      "https://www.trafficnz.info/camera/images/423.jpg" (JStr "Wellington")
      (JNum (-41.285)%float) (JNum 174.773%float) (JStr "North")
      ["Wellington - City"] "feed" "Operational" "Static Matrix Fallback"
      (Some low) (Some stable) 99%float (toLocaleTimeString h (clock h 2)) ].

Module Proxy.
Inductive ProxyType : Type := JsonProxy | TextProxy.
Record ProxyConfig : Type := mkProxy { url : string; type : ProxyType }.
End Proxy.

Definition PROXIES : list Proxy.ProxyConfig :=
  [ Proxy.mkProxy "https://api.allorigins.win/get?url=" Proxy.JsonProxy;
    Proxy.mkProxy "https://corsproxy.io/?" Proxy.TextProxy;
    Proxy.mkProxy "https://api.codetabs.com/v1/proxy?url=" Proxy.TextProxy;
    Proxy.mkProxy "https://thingproxy.freeboard.io/fetch/" Proxy.TextProxy ].

Definition severities : list Severity := [low; low; low; medium; medium; high].
Definition trends : list Trend := [improving; stable; stable; escalating].

(* ================================================================== *)
(** ** [normalizeImageUrl] *)
(* ================================================================== *)

Definition normalizeImageUrl (url : string) : string :=
  if String.eqb url "" then ""
  else
    let absoluteUrl :=
      if startsWith url "http" && negb (includes url "trafficnz.info") then
        replace url "http://" "https://"
      else if startsWith url "/" then
        BASE_TRAFFIC_URL ++ url
      else if digitsJpg false url then
        BASE_TRAFFIC_URL ++ "/camera/images/" ++ url
      else if negb (startsWith url "http") then
        BASE_TRAFFIC_URL ++ "/camera/images/" ++ url
      else url in
    replace
      (replace absoluteUrl "http://www.trafficnz.info" "https://www.trafficnz.info")
      "http://trafficnz.info" "https://www.trafficnz.info".

(** The same method called on a payload value, as [parseArcGisJson] does:
    a falsy value gives [""], and a truthy value that is not a string has
    no [startsWith] to call. *)
Definition normalizeImageUrlAny (url : jsval) : Result string :=
  if negb (truthy url) then Ok ""
  else match url with
       | JStr s => Ok (normalizeImageUrl s)
       | _ => Throw (TypeError "url.startsWith is not a function")
       end.

(* ================================================================== *)
(** ** The class [TrafficService] *)
(* ================================================================== *)

(** [a || b] on strings *)
Definition orStr (a b : string) : string :=
  if String.eqb a "" then b else a.

(** [a || b] on payload values *)
Definition orVal (a b : jsval) : jsval :=
  if truthy a then a else b.

Section TrafficService.

Variable h : Host.

(** The request either resolves with the response or rejects, also when
    the timer aborted it; the [catch] rethrows what it caught. *)
Definition fetchWithTimeout (url : string) (timeout : N) : M Response.t :=
  emit (FetchCall url) ;;;
  tryCatch (liftR (fetch h url timeout)) (fun e => throw e).

(** The callback of [geoJson.features.map].  Reads of [props] after the
    first cannot throw, so reading both operands of an [||] beforehand
    changes nothing.  The template literal of the identifier converts its
    value to a string, and [new Date(v)] converts [v] to a primitive;
    both throw on a value that cannot be converted. *)
Definition arcGisFeature (feature : jsval) : M TrafficCamera :=
  props <- liftR (get feature "properties") ;;
  geometry <- liftR (get feature "geometry") ;;
  coords <- liftR (get geometry "coordinates") ;;
  offline <- liftR (get props "offline") ;;
  let status := if strictEqStr offline "true" then "Offline" else "Operational" in
  pid <- liftR (get props "id") ;;
  oid <- liftR (get props "ObjectId") ;;
  idText <- liftR (toStringR (numberToString h) (orVal pid oid)) ;;
  pname <- liftR (get props "name") ;;
  pdesc <- liftR (get props "description") ;;
  pimg <- liftR (get props "imageurl") ;;
  pthumb <- liftR (get props "thumburl") ;;
  img <- liftR (normalizeImageUrlAny (orVal pimg pthumb)) ;;
  pregion <- liftR (get props "region") ;;
  lat <- liftR (at_ coords 1) ;;
  lng <- liftR (at_ coords 0) ;;
  pdir <- liftR (get props "direction") ;;
  sev <- pick h severities ;;
  tr <- pick h trends ;;
  conf <- jitter h 95%float 5%float ;;
  pupd <- liftR (get props "updatedate") ;;
  stamp <- (if truthy pupd then ret pupd
            else t <- Date_now h ;; ret (JNum t)) ;;
  _ <- liftR (toPrimitive (numberToString h) stamp) ;;
  ret {| id := "arcgis-" ++ idText;
         name := orVal pname (JStr "Surveillance Node");
         description := orVal pdesc (JStr "Official NZTA Live Feed");
         imageUrl := img;
         region := orVal pregion (JStr "NZ Sector");
         latitude := lat;
         longitude := lng;
         direction := orVal pdir (JStr "N/A");
         journeyLegs := [];
         type := "feed";
         status := status;
         source := "NZTA ArcGIS (Authoritative)";
         severity := sev;
         trend := tr;
         confidence := conf;
         lastUpdate := toLocaleTimeHM h stamp |}.

Definition parseArcGisJson (geoJson : jsval) : M (list TrafficCamera) :=
  if negb (truthy geoJson) then ret []
  else
    features <- liftR (get geoJson "features") ;;
    if negb (truthy features) then ret []
    else match features with
         | JArr items => mapM arcGisFeature items
         | _ => throw (TypeError "geoJson.features.map is not a function")
         end.

(** [getVal] of the [forEach] callback *)
Definition getVal (node : xnode) (s : selector) : string :=
  match Dom.querySelector node s with
  | Some e => orStr (trim (Dom.textContent e)) ""
  | None => ""
  end.

(** The callback of [cameraNodes.forEach]: the record it pushes, if any. *)
Definition cameraOfNode (node : xnode) : M (option TrafficCamera) :=
  let lat := parseFloat h (orStr (getVal node (SelChild "location" "latitude"))
                            (orStr (getVal node (SelTag "latitude")) "0")) in
  let lng := parseFloat h (orStr (getVal node (SelChild "location" "longitude"))
                            (orStr (getVal node (SelTag "longitude")) "0")) in
  if JsNumber.truthy lat && JsNumber.truthy lng then
    let status := orStr (getVal node (SelTag "status")) "Operational" in
    ident <- (if String.eqb (getVal node (SelTag "id")) "" then
                r <- Math_random h ;;
                ret ("node-" ++ substr (toString36 h r) 2 5)
              else ret (getVal node (SelTag "id"))) ;;
    sev <- (if includes status "Construction" then ret (Some medium)
            else pick h severities) ;;
    tr <- pick h trends ;;
    conf <- jitter h 80%float 19%float ;;
    t <- Date_now h ;;
    ret (Some
      {| id := ident;
         name := JStr (orStr (getVal node (SelTag "name")) "Surveillance Node");
         description := JStr (orStr (getVal node (SelTag "description")) "Live matrix uplink");
         imageUrl := normalizeImageUrl
                       (orStr (getVal node (SelTag "imageUrl")) (getVal node (SelTag "url")));
         region := JStr (orStr (getVal node (SelTag "region")) "NZ Sector");
         latitude := JNum lat;
         longitude := JNum lng;
         direction := JStr (orStr (getVal node (SelTag "direction")) "N/A");
         journeyLegs := [];
         type := "feed";
         status := status;
         source := "TrafficNZ REST v4";
         severity := sev;
         trend := tr;
         confidence := conf;
         lastUpdate := toLocaleTimeHM h (JNum t) |})
  else ret None.

(** [cameraNodes.forEach(...)]: the records pushed, in node order. *)
Fixpoint forEachNode (nodes : list xnode) : M (list TrafficCamera) :=
  match nodes with
  | [] => ret []
  | node :: rest =>
      c <- cameraOfNode node ;;
      cs <- forEachNode rest ;;
      ret (match c with Some cam => cam :: cs | None => cs end)
  end.

(** [xmlDoc.querySelectorAll("trafficCamera, camera")] *)
Definition cameraNodes (xmlDoc : xnode) : list xnode :=
  Dom.querySelectorAll xmlDoc [SelTag "trafficCamera"; SelTag "camera"].

Definition parseTrafficXml (xmlString : string) : M (list TrafficCamera) :=
  emit (DomParse xmlString) ;;;
  let xmlDoc := parseFromString h xmlString in
  if 0 <? List.length (Dom.getElementsByTagName xmlDoc "parsererror") then
    emit (ConsoleError "Bitstream Corruption: Failed to parse XML.") ;;;
    ret []
  else
    forEachNode (cameraNodes xmlDoc).

(** The validation of a relay body: [None] when it is rejected (falsy, or
    an HTML page), the text to parse otherwise; a truthy value that is
    not a string has no [trim] to call. *)
Definition validate (xmlText : jsval) : Result (option string) :=
  if negb (truthy xmlText) then Ok None
  else match xmlText with
       | JStr s =>
           if startsWith (trim s) "<!DOCTYPE html" || startsWith (trim s) "<html"
           then Ok None else Ok (Some s)
       | _ => Throw (TypeError "xmlText.trim is not a function")
       end.

Definition targetUrl (proxy : Proxy.ProxyConfig) : string :=
  if includes (Proxy.url proxy) "corsproxy.io"
  then Proxy.url proxy ++ XML_ENDPOINT
  else Proxy.url proxy ++ encodeURIComponent XML_ENDPOINT.

(** The body a relay response carries, per the relay's type. *)
Definition extractBody (proxy : Proxy.ProxyConfig) (response : Response.t) : Result jsval :=
  match Proxy.type proxy with
  | Proxy.JsonProxy =>
      match Response.json response with
      | Ok data => get data "contents"
      | Throw e => Throw e
      end
  | Proxy.TextProxy =>
      match Response.text response with
      | Ok t => Ok (JStr t)
      | Throw e => Throw e
      end
  end.

(** The first [try] block of [fetchLiveCameras]: [Some parsed] when the
    method returns from inside it. *)
Definition tryArcGis : M (option (list TrafficCamera)) :=
  tryCatch
    (arcGisRes <- fetchWithTimeout ARCGIS_ENDPOINT 12000%N ;;
     if Response.ok arcGisRes then
       data <- liftR (Response.json arcGisRes) ;;
       parsed <- parseArcGisJson data ;;
       if 0 <? List.length parsed then
         emit (ConsoleLog ("Synchronization Successful: " ++ ofNat (List.length parsed)
                           ++ " authoritative nodes from ArcGIS")) ;;;
         ret (Some parsed)
       else ret None
     else ret None)
    (fun _ =>
       emit (ConsoleWarn "ArcGIS primary uplink failed. Falling back to proxy pool...") ;;;
       ret None).

(** One iteration of the loop over [PROXIES]: [Some parsed] when the
    method returns from inside it, [None] when the loop goes on. *)
Definition tryProxy (proxy : Proxy.ProxyConfig) : M (option (list TrafficCamera)) :=
  tryCatch
    (response <- fetchWithTimeout (targetUrl proxy) 12000%N ;;
     if negb (Response.ok response) then
       emit (ConsoleWarn ("Node " ++ Proxy.url proxy ++ " returned status "
                          ++ ofNat (Response.status response)
                          ++ ". Retrying via alternate vector...")) ;;;
       ret None
     else
       xmlText <- liftR (extractBody proxy response) ;;
       checked <- liftR (validate xmlText) ;;
       match checked with
       | None =>
           emit (ConsoleWarn ("Node " ++ Proxy.url proxy
                              ++ " returned invalid bitstream (HTML).")) ;;;
           ret None
       | Some xml =>
           parsed <- parseTrafficXml xml ;;
           if 0 <? List.length parsed then
             emit (ConsoleLog ("Synchronization Successful: " ++ ofNat (List.length parsed)
                               ++ " nodes decrypted via " ++ Proxy.url proxy)) ;;;
             ret (Some parsed)
           else ret None
       end)
    (fun error =>
       emit (ConsoleWarn ("Connection to " ++ Proxy.url proxy ++ " dropped: "
                          ++ message error)) ;;;
       ret None).

(** The [for] loop over the relays and what follows it. *)
Fixpoint proxyLoop (proxies : list Proxy.ProxyConfig) : M (list TrafficCamera) :=
  match proxies with
  | [] =>
      emit (ConsoleError "Critical: All synchronization proxies failed. Engaging emergency fallback dataset.") ;;;
      ret (FALLBACK_CAMERAS h)
  | proxy :: rest =>
      r <- tryProxy proxy ;;
      match r with
      | Some parsed => ret parsed
      | None => proxyLoop rest
      end
  end.

Definition fetchLiveCameras : M (list TrafficCamera) :=
  emit (ConsoleLog "Initiating Traffic Matrix Sync (ArcGIS + REST v4)...") ;;;
  r <- tryArcGis ;;
  match r with
  | Some parsed => ret parsed
  | None => proxyLoop PROXIES
  end.

End TrafficService.

(* ================================================================== *)
(** ** Definitions used to state the properties *)
(* ================================================================== *)

(** Number of positions of [s] at which [p] occurs. *)
Fixpoint countOcc (s p : string) : nat :=
  (if startsWith s p then 1 else 0) +
  match s with
  | EmptyString => 0
  | String _ s' => countOcc s' p
  end.

(** [c] occurs in [s]. *)
Fixpoint hasChar (c : ascii) (s : string) : bool :=
  match s with
  | EmptyString => false
  | String d s' => Ascii.eqb c d || hasChar c s'
  end.



(** The [return] expression of [normalizeImageUrl], on its own. *)
Definition forceHttps (absoluteUrl : string) : string :=
  replace
    (replace absoluteUrl "http://www.trafficnz.info" "https://www.trafficnz.info")
    "http://trafficnz.info" "https://www.trafficnz.info".


(* ================================================================== *)
(** ** [mercatorToLatLng] over the real numbers *)
(* ================================================================== *)

(** The formulas of [mercatorToLatLng] (in the map component) read over
    the real numbers instead of binary64: an idealisation, used only to
    record that the formulas invert the projection exactly. *)
Definition mercatorToLatLngR (x y : R) : R * R :=
  let R0 := 6378137%R in
  let lng := ((x / R0) * (180 / PI))%R in
  let lat := ((2 * atan (exp (y / R0)) - PI / 2) * (180 / PI))%R in
  (lat, lng).

(** Modelled from the spec: the forward spherical Mercator projection
    (Earth radius 6378137 m), which the repository does not contain;
    it maps degrees to metres. *)
Definition latLngToMercatorR (lat lng : R) : R * R :=
  let R0 := 6378137%R in
  ((R0 * (lng * (PI / 180)))%R,
   (R0 * ln (tan (PI / 4 + lat * (PI / 180) / 2)))%R).

(* ================================================================== *)
(** ** Sample runtimes and payloads, for the examples *)
(* ================================================================== *)

Module Sample.

(** Number printing that agrees with JavaScript on the natural numbers. *)
Definition printNat (x : float) : string :=
  match JsNumber.toIndex x with Some n => ofNat n | None => "NaN" end.

Definition digit36 (d : float) : ascii :=
  match JsNumber.toIndex d with
  | Some n => ascii_of_nat (if n <? 10 then 48 + n else 87 + n)
  | None => "?"%char
  end.

Fixpoint fracDigits36 (fuel : nat) (x : float) : string :=
  match fuel with
  | O => EmptyString
  | S fuel' =>
      if PrimFloat.eqb x 0%float then EmptyString
      else let y := PrimFloat.mul x 36%float in
           let d := JsNumber.floor y in
           String (digit36 d) (fracDigits36 fuel' (PrimFloat.sub y d))
  end.

(** [x.toString(36)] for the sixteenths in (0, 1), whose expansion in
    base 36 has two digits. *)
Definition base36 (x : float) : string := "0." ++ fracDigits36 12 x.

(** [Math.random()] running through the odd sixteenths. *)
Definition sixteenths (k : nat) : float :=
  PrimFloat.div (JsNumber.ofZ (Z.of_nat (2 * (k mod 8) + 1))) 16%float.

(** [parseFloat] on the three strings the examples read. *)
Definition parseFloatTable (s : string) : float :=
  if String.eqb s "-36.8" then (-36.8)%float
  else if String.eqb s "174.7" then 174.7%float
  else if String.eqb s "0" then 0%float
  else PrimFloat.nan.

Definition hostWith (rand : nat -> float)
    (net : string -> Result Response.t) (dom : string -> xnode) : Host :=
  {| fetch := fun url _ => net url;
     parseFromString := dom;
     parseFloat := parseFloatTable;
     random := rand;
     clock := fun k => PrimFloat.add 1700000000000%float (JsNumber.ofZ (Z.of_nat k));
     numberToString := printNat;
     toString36 := base36;
     toLocaleTimeString := fun _ => "10:00:00 AM";
     toLocaleTimeHM := fun _ => "10:00 AM" |}.

Definition host : (string -> Result Response.t) -> (string -> xnode) -> Host :=
  hostWith sixteenths.

Definition failed : Result Response.t := Throw (TypeError "Failed to fetch").

Definition errorDoc : xnode := XElem "parsererror" [XText "error on line 1"].

(** No network at all. *)
Definition offline : Host := host (fun _ => failed) (fun _ => errorDoc).

(** Only the ArcGIS endpoint answers, with the payload [data]. *)
Definition arcGisOnly (data : jsval) : Host :=
  host (fun url => if String.eqb url ARCGIS_ENDPOINT
                   then Ok (Response.make true 200 (Ok data) (Ok ""))
                   else failed)
       (fun _ => errorDoc).

Definition feature (props : list (string * jsval)) (geometry : jsval) : jsval :=
  JObj [("type", JStr "Feature"); ("properties", JObj props); ("geometry", geometry)].

Definition point (lng lat : float) : jsval :=
  JObj [("type", JStr "Point"); ("coordinates", JArr [JNum lng; JNum lat])].

Definition collection (features : list jsval) : jsval :=
  JObj [("type", JStr "FeatureCollection"); ("features", JArr features)].

(** One feature located at (0, 0). *)
Definition nullIsland : jsval :=
  collection [feature [("id", JStr "7"); ("name", JStr "SH1 Test")] (point 0 0)].

(** Two features that carry neither [id] nor [ObjectId]. *)
Definition anonymous : jsval :=
  collection [feature [("name", JStr "SH1 North")] (point 174.7 (-36.8));
              feature [("name", JStr "SH1 South")] (point 174.75 (-36.83))].

(** A valid feature followed by one whose geometry is [null]. *)
Definition halfBroken : jsval :=
  collection [feature [("id", JStr "7")] (point 174.7 (-36.8));
              feature [("id", JStr "8")] JNull].

(** The legacy document
    [<response><camera>...</camera><trafficCamera>...</trafficCamera></response>]:
    a v3 camera under construction with top-level coordinates and no
    image, and a v4 camera with nested coordinates and no [id]. *)
Definition legacyXml : string :=
  "<response><camera><id>20</id><status>Under Construction</status><latitude>-36.8</latitude><longitude>174.7</longitude></camera><trafficCamera><name>SH1</name><imageUrl>20.jpg</imageUrl><location><latitude>-36.8</latitude><longitude>174.7</longitude></location></trafficCamera></response>".

Definition legacyDoc : xnode :=
  XElem "response"
    [ XElem "camera"
        [ XElem "id" [XText "20"];
          XElem "status" [XText "Under Construction"];
          XElem "latitude" [XText "-36.8"];
          XElem "longitude" [XText "174.7"] ];
      XElem "trafficCamera"
        [ XElem "name" [XText "SH1"];
          XElem "imageUrl" [XText "20.jpg"];
          XElem "location"
            [ XElem "latitude" [XText "-36.8"];
              XElem "longitude" [XText "174.7"] ] ] ].

Definition dom (s : string) : xnode :=
  if String.eqb s legacyXml then legacyDoc else errorDoc.

Definition htmlPage : string :=
  "<!DOCTYPE html><html><body>502 Bad Gateway</body></html>".

(** ArcGIS is down; the first relay answers with an HTML error page in
    its JSON envelope, the second with the legacy document, the others
    are down. *)
Definition relays : Host :=
  host (fun url =>
          if String.eqb url ("https://api.allorigins.win/get?url=" ++ encodeURIComponent XML_ENDPOINT)
          then Ok (Response.make true 200 (Ok (JObj [("contents", JStr htmlPage)])) (Ok ""))
          else if String.eqb url ("https://corsproxy.io/?" ++ XML_ENDPOINT)
          then Ok (Response.make true 200 (Throw (mkError "SyntaxError" "Unexpected token <"))
                     (Ok legacyXml))
          else failed)
       dom.

(** The state of a first call: the module has read the clock three times. *)
Definition start : State := mkState 0 3 [].

(** Two v4 cameras without [id]. *)
Definition twinsXml : string :=
  "<response><trafficCamera><name>SH1 North</name><location><latitude>-36.8</latitude><longitude>174.7</longitude></location></trafficCamera><trafficCamera><name>SH1 South</name><location><latitude>-36.8</latitude><longitude>174.7</longitude></location></trafficCamera></response>".

Definition twinsDoc : xnode :=
  XElem "response"
    [ XElem "trafficCamera"
        [ XElem "name" [XText "SH1 North"];
          XElem "location"
            [ XElem "latitude" [XText "-36.8"];
              XElem "longitude" [XText "174.7"] ] ];
      XElem "trafficCamera"
        [ XElem "name" [XText "SH1 South"];
          XElem "location"
            [ XElem "latitude" [XText "-36.8"];
              XElem "longitude" [XText "174.7"] ] ] ].

(** A random source whose draws number 0 and 4, the two the parser uses
    for the identifiers of [twinsDoc], are 1/2 + 2^-40 and 1/2 + 2^-41:
    distinct numbers with the same first five digits in base 36. *)
Definition closeDraws (k : nat) : float :=
  if k =? 0 then PrimFloat.add 0.5%float (PrimFloat.div 1%float 1099511627776%float)
  else if k =? 4 then PrimFloat.add 0.5%float (PrimFloat.div 1%float 2199023255552%float)
  else sixteenths k.

(** ArcGIS is down and the first relay wraps [twinsXml]. *)
Definition twins : Host :=
  hostWith closeDraws
    (fun url =>
       if String.eqb url ("https://api.allorigins.win/get?url=" ++ encodeURIComponent XML_ENDPOINT)
       then Ok (Response.make true 200 (Ok (JObj [("contents", JStr twinsXml)])) (Ok ""))
       else failed)
    (fun s => if String.eqb s twinsXml then twinsDoc else errorDoc).

End Sample.

(** A feature whose [geometry], or whose geometry's [coordinates], is
    [undefined] or [null]. *)
Definition lacksGeometry (feature : jsval) : bool :=
  match get feature "geometry" with
  | Ok JUndefined | Ok JNull => true
  | Ok geometry =>
      match get geometry "coordinates" with
      | Ok JUndefined | Ok JNull => true
      | _ => false
      end
  | Throw _ => false
  end.

(** The URLs requested in a stretch of trace, in order. *)
Fixpoint fetchedUrls (d : list event) : list string :=
  match d with
  | [] => []
  | FetchCall u :: d' => u :: fetchedUrls d'
  | _ :: d' => fetchedUrls d'
  end.

(** The texts handed to [DOMParser] in a stretch of trace, in order. *)
Fixpoint parsedTexts (d : list event) : list string :=
  match d with
  | [] => []
  | DomParse t :: d' => t :: parsedTexts d'
  | _ :: d' => parsedTexts d'
  end.

(** The two numbers the [forEach] callback reads for a camera node. *)
Definition nodeLat (h : Host) (node : xnode) : float :=
  parseFloat h (orStr (getVal node (SelChild "location" "latitude"))
                  (orStr (getVal node (SelTag "latitude")) "0")).

Definition nodeLng (h : Host) (node : xnode) : float :=
  parseFloat h (orStr (getVal node (SelChild "location" "longitude"))
                  (orStr (getVal node (SelTag "longitude")) "0")).

(** The test [if (lat && lng)] of the callback. *)
Definition locatable (h : Host) (node : xnode) : bool :=
  JsNumber.truthy (nodeLat h node) && JsNumber.truthy (nodeLng h node).

(** How a record of [parseArcGisJson] relates to the feature it was made
    from: latitude and longitude are the second and the first coordinate,
    and the status is [Offline] exactly when the [offline] attribute is
    the string ["true"]. *)
Definition madeFrom (feature : jsval) (cam : TrafficCamera) : Prop :=
  exists props geometry coords offline,
    get feature "properties" = Ok props /\
    get feature "geometry" = Ok geometry /\
    get geometry "coordinates" = Ok coords /\
    get props "offline" = Ok offline /\
    at_ coords 1 = Ok (latitude cam) /\
    at_ coords 0 = Ok (longitude cam) /\
    status cam = (if strictEqStr offline "true" then "Offline" else "Operational").

(* ================================================================== *)
(** ** The map component: [mercatorToLatLng], [normalizeIncidents],
       [normalizeArcGISCameras] *)
(* ================================================================== *)

(** What the three functions take from the runtime: [Math.exp],
    [Math.atan], the number a string denotes ([Number(s)]) and the
    printing of a number ([String(x)]). *)
Record MathHost : Type := mkMath {
  Math_exp : float -> float;
  Math_atan : float -> float;
  stringToNumber : string -> float;
  printNumber : float -> string
}.

(** [l.map(f)] for a callback that may throw. *)
Fixpoint mapR {A B} (f : A -> Result B) (l : list A) : Result (list B) :=
  match l with
  | [] => Ok []
  | a :: l' => b <~ f a ;; bs <~ mapR f l' ;; Ok (b :: bs)
  end.

Module Map.

(** A point of the map: what both normalizers return. *)
Record Point : Type := mkPoint {
  latitude : float;
  longitude : float;
  title : jsval;
  description : jsval
}.

Record LatLng : Type := mkLatLng { lat : float; lng : float }.

(** [Math.PI] *)
Definition Math_PI : float := 0x1.921fb54442d18p+1%float.

(** [ToNumber], as [Number(v)] and the operator [/] apply it. *)
Definition toNumber (m : MathHost) (v : jsval) : Result float :=
  match v with
  | JUndefined => Ok PrimFloat.nan
  | JNull => Ok 0%float
  | JBool b => Ok (if b then 1%float else 0%float)
  | JNum x => Ok x
  | JStr s => Ok (stringToNumber m s)
  | JArr _ | JObj _ =>
      s <~ toStringR (printNumber m) v ;; Ok (stringToNumber m s)
  end.

(** [v?.k] *)
Definition optGet (v : jsval) (k : string) : jsval :=
  match v with
  | JObj fields => lookup k fields
  | _ => JUndefined
  end.

Definition nullish (v : jsval) : bool :=
  match v with
  | JUndefined | JNull => true
  | _ => false
  end.

(** Convert WebMercator to latitude and longitude; the divisions apply
    [ToNumber] to the arguments. *)
Definition mercatorToLatLng (m : MathHost) (x y : jsval) : Result LatLng :=
  let R := 6378137%float in
  xn <~ toNumber m x ;;
  let lng := PrimFloat.mul (PrimFloat.div xn R) (PrimFloat.div 180%float Math_PI) in
  yn <~ toNumber m y ;;
  let lat :=
    PrimFloat.mul
      (PrimFloat.sub
         (PrimFloat.mul 2%float (Math_atan m (Math_exp m (PrimFloat.div yn R))))
         (PrimFloat.div Math_PI 2%float))
      (PrimFloat.div 180%float Math_PI) in
  Ok (mkLatLng lat lng).

(** The callback of [list.map] in [normalizeIncidents]. *)
Definition incidentOf (m : MathHost) (i : jsval) : Result Point :=
  la <~ get i "latitude" ;;
  la' <~ (if nullish la then get i "lat" else Ok la) ;;
  latN <~ toNumber m la' ;;
  lo <~ get i "longitude" ;;
  lo' <~ (if nullish lo then get i "lng" else Ok lo) ;;
  lngN <~ toNumber m lo' ;;
  et <~ get i "eventType" ;;
  de <~ get i "description" ;;
  Ok {| latitude := latN;
        longitude := lngN;
        title := orVal et (JStr "Incident");
        description := orVal de (JStr "No details") |}.

(** The list [normalizeIncidents] reads: [data.incidents] when that is an
    array, else [data] when it is one, else nothing. *)
Definition incidentList (data : jsval) : list jsval :=
  match optGet data "incidents" with
  | JArr l => l
  | _ => match data with
         | JArr l => l
         | _ => []
         end
  end.

Definition normalizeIncidents (m : MathHost) (data : jsval) : Result (list Point) :=
  if negb (truthy data) then Ok []
  else
    pts <~ mapR (incidentOf m) (incidentList data) ;;
    Ok (filter (fun p => negb (JsNumber.isNaN (latitude p))
                         && negb (JsNumber.isNaN (longitude p))) pts).

(** The callback of [data.features.map] in [normalizeArcGISCameras];
    [None] is its [null]. *)
Definition cameraPointOf (m : MathHost) (f : jsval) : Result (option Point) :=
  g <~ get f "geometry" ;;
  if negb (truthy g) then Ok None
  else
    gx <~ get g "x" ;;
    gy <~ get g "y" ;;
    ll <~ mercatorToLatLng m gx gy ;;
    attrs <~ get f "attributes" ;;
    Ok (Some
      {| latitude := lat ll;
         longitude := lng ll;
         title := orVal (optGet attrs "name")
                    (orVal (optGet attrs "CameraName") (JStr "Traffic camera"));
         description := orVal (optGet attrs "description")
                          (orVal (optGet attrs "LocationDescription") (JStr "NZTA camera")) |}).

(** [.filter(Boolean)] on the callback's results *)
Fixpoint dropNull {A} (l : list (option A)) : list A :=
  match l with
  | [] => []
  | Some a :: l' => a :: dropNull l'
  | None :: l' => dropNull l'
  end.

Definition normalizeArcGISCameras (m : MathHost) (data : jsval) : Result (list Point) :=
  match optGet data "features" with
  | JArr items =>
      pts <~ mapR (cameraPointOf m) items ;;
      Ok (dropNull pts)
  | _ => Ok []
  end.

(** A runtime for the examples: the exponential and the arc tangent at
    the two arguments an example at the origin needs, strings denoting the
    numbers of the examples, natural numbers printed in decimal. *)
Definition sampleMath : MathHost :=
  {| Math_exp := fun x => if PrimFloat.eqb x 0%float then 1%float else PrimFloat.nan;
     Math_atan := fun x => if PrimFloat.eqb x 1%float then 0x1.921fb54442d18p-1%float
                           else PrimFloat.nan;
     stringToNumber := fun s => if String.eqb s "-36.8" then (-36.8)%float
                                else if String.eqb s "174.7" then 174.7%float
                                else if String.eqb s "" then 0%float
                                else PrimFloat.nan;
     printNumber := Sample.printNat |}.

End Map.

(* ================================================================== *)
(** ** The service worker: the [activate] handler *)
(* ================================================================== *)

Module ServiceWorker.

Definition CACHE_NAME : string := "traffic-os-v1".

Section Activate.

(** What a cache holds; the handler never looks inside. *)
Variable Cache : Type.

(** The cache storage: the caches by name, in the order of [caches.keys()]. *)
Definition CacheStorage : Type := list (string * Cache).

(** [caches.keys()] *)
Definition keys (store : CacheStorage) : list string := map fst store.

(** [caches.delete(name)] *)
Definition delete (name : string) (store : CacheStorage) : CacheStorage :=
  filter (fun kv => negb (String.eqb (fst kv) name)) store.

(** The callback of [cacheNames.map]: a cache that is not the current one
    is announced and deleted. *)
Definition purge (acc : CacheStorage * list event) (cache : string)
  : CacheStorage * list event :=
  if negb (String.eqb cache CACHE_NAME) then
    (delete cache (fst acc),
     (snd acc ++ [ConsoleLog "Matrix Purge: Removing deprecated data clusters"])%list)
  else acc.

(** The [activate] handler, once the promise given to [waitUntil] has
    settled: the storage it leaves and the lines it logged. *)
Definition activate (store : CacheStorage) : CacheStorage * list event :=
  fold_left purge (keys store) (store, []).

End Activate.

End ServiceWorker.

(** A feature whose image reference ([imageurl], or else [thumburl]) is a
    truthy value that is not a string. *)
Definition imageNotText (feature : jsval) : bool :=
  match get feature "properties" with
  | Ok props =>
      match get props "imageurl", get props "thumburl" with
      | Ok img, Ok thumb =>
          truthy (orVal img thumb)
          && match orVal img thumb with JStr _ => false | _ => true end
      | _, _ => false
      end
  | Throw _ => false
  end.

(** More sample runtimes. *)
Module Scenario.

(** ArcGIS is down and every relay answers 502 with an HTML body. *)
Definition badGateway : Host :=
  Sample.host
    (fun url => if String.eqb url ARCGIS_ENDPOINT then Sample.failed
                else Ok (Response.make false 502 (Ok JNull) (Ok Sample.htmlPage)))
    Sample.dom.

(** An HTML error page whose doctype is written in lower case. *)
Definition lowercasePage : string :=
  "<!doctype html><html><body>502 Bad Gateway</body></html>".

(** ArcGIS is down, the first relay wraps [lowercasePage] in its JSON
    envelope, the other relays are down. *)
Definition lowercaseRelay : Host :=
  Sample.host
    (fun url =>
       if String.eqb url ("https://api.allorigins.win/get?url=" ++ encodeURIComponent XML_ENDPOINT)
       then Ok (Response.make true 200 (Ok (JObj [("contents", JStr lowercasePage)])) (Ok ""))
       else Sample.failed)
    Sample.dom.

(** One feature whose image is served over plain HTTP by a subdomain of
    trafficnz.info. *)
Definition cdnCamera : jsval :=
  Sample.collection
    [Sample.feature [("id", JStr "7"); ("imageurl", JStr "http://cdn.trafficnz.info/a.jpg")]
       (Sample.point 174.7 (-36.8))].

End Scenario.

(* ================================================================== *)
(** * Properties *)
(* ================================================================== *)

(** ** Strings *)

Section StringFacts.

Lemma startsWith_app_l s p q :
  startsWith s (p ++ q) = true -> startsWith s p = true.
Proof.
  revert s; induction p as [|a p IH]; intros s; simpl.
  - reflexivity.
  - destruct s as [|b s]; simpl; [discriminate|].
    intros H; apply andb_true_iff in H as [E H]. rewrite E; simpl; eauto.
Qed.

Lemma includes_cons c s p :
  includes (String c s) p = startsWith (String c s) p || includes s p.
Proof. reflexivity. Qed.

Lemma includes_nil p : includes "" p = startsWith "" p.
Proof. cbn [includes]. apply orb_false_r. Qed.

Lemma includes_app_l s p q :
  includes s (p ++ q) = true -> includes s p = true.
Proof.
  induction s as [|c s IH].
  - rewrite !includes_nil. apply startsWith_app_l.
  - rewrite !includes_cons. intros H; apply orb_true_iff in H as [H|H].
    + now rewrite (startsWith_app_l _ _ _ H).
    + rewrite (IH H). apply orb_true_r.
Qed.

Lemma includes_skip n s p :
  includes (skip n s) p = true -> includes s p = true.
Proof.
  revert s; induction n as [|n IH]; intros s; [trivial|].
  destruct s as [|c s]; [trivial|]. simpl skip. intros H.
  rewrite includes_cons, (IH _ H). apply orb_true_r.
Qed.

Lemma replace_absent s pat rep :
  includes s pat = false -> replace s pat rep = s.
Proof.
  induction s as [|c s IH].
  - rewrite includes_nil. cbn [replace]. now intros ->.
  - rewrite includes_cons. intros H; apply orb_false_iff in H as [H1 H2].
    cbn [replace]. rewrite H1. now rewrite IH.
Qed.

Lemma replace_miss c s pat rep :
  startsWith (String c s) pat = false ->
  replace (String c s) pat rep = String c (replace s pat rep).
Proof. intros H. cbn [replace]. now rewrite H. Qed.

Lemma replace_hit s pat rep :
  startsWith s pat = true ->
  replace s pat rep = rep ++ skip (String.length pat) s.
Proof. intros H. destruct s; cbn [replace]; now rewrite H. Qed.

(** A test for a prefix [q] that holds no [a] gives the same answer
    before and after a replacement whose pattern and replacement both
    start with [a]. *)
Lemma startsWith_replace a pt rp q :
  hasChar a q = false ->
  forall s, startsWith (replace s (String a pt) (String a rp)) q = startsWith s q.
Proof.
  intros Hq s; revert q Hq; induction s as [|c s IH]; intros q Hq.
  - reflexivity.
  - destruct (startsWith (String c s) (String a pt)) eqn:E.
    + rewrite replace_hit by exact E.
      destruct q as [|b q]; [reflexivity|].
      simpl in Hq. apply orb_false_iff in Hq as [Hab _].
      simpl in E. apply andb_true_iff in E as [Eac _].
      apply Ascii.eqb_eq in Eac; subst c.
      change (String a rp ++ ?t) with (String a (rp ++ t)).
      simpl. rewrite Ascii.eqb_sym in Hab. now rewrite Hab.
    + rewrite replace_miss by exact E.
      destruct q as [|b q]; [reflexivity|].
      simpl in Hq. apply orb_false_iff in Hq as [_ Hq].
      simpl. now rewrite IH.
Qed.

Lemma countOcc_zero s p : countOcc s p = 0 -> includes s p = false.
Proof.
  induction s as [|c s IH]; cbn [countOcc includes].
  - destruct (startsWith "" p); [discriminate|reflexivity].
  - destruct (startsWith (String c s) p); [discriminate|]. exact IH.
Qed.

Lemma countOcc_hit c s p :
  startsWith (String c s) p = true -> countOcc (String c s) p <= 1 ->
  includes s p = false.
Proof.
  intros H Hc. apply countOcc_zero.
  change (countOcc (String c s) p)
    with ((if startsWith (String c s) p then 1 else 0) + countOcc s p) in Hc.
  rewrite H in Hc. lia.
Qed.

Lemma countOcc_miss c s p :
  startsWith (String c s) p = false ->
  countOcc (String c s) p = countOcc s p.
Proof.
  intros H.
  change (countOcc (String c s) p)
    with ((if startsWith (String c s) p then 1 else 0) + countOcc s p).
  now rewrite H.
Qed.

End StringFacts.

(** ** [normalizeImageUrl] *)

Section NormalizeImageUrl.

Lemma startsWith_app_r s t p :
  startsWith s p = true -> startsWith (s ++ t) p = true.
Proof.
  revert s; induction p as [|a p IH]; intros s; [reflexivity|].
  destruct s as [|b s]; simpl; [discriminate|].
  intros H; apply andb_true_iff in H as [E H]. now rewrite E, IH.
Qed.

Lemma startsWith_inv s p :
  startsWith s p = true -> s = p ++ skip (String.length p) s.
Proof.
  revert s; induction p as [|a p IH]; intros s; [reflexivity|].
  destruct s as [|b s]; simpl; [discriminate|].
  intros H; apply andb_true_iff in H as [E H].
  apply Ascii.eqb_eq in E; subst b. f_equal. now apply IH.
Qed.

(** Replacing a pattern that starts with ["http://"] in a string with at
    most one ["http://"] leaves none behind, when the replacement does
    not complete one with what follows it. *)
Lemma replace_uses_up w rp s :
  (forall t, includes (String "h" rp ++ t) "http://" = includes t "http://") ->
  countOcc s "http://" <= 1 ->
  includes s ("http://" ++ w) = true ->
  includes (replace s ("http://" ++ w) (String "h" rp)) "http://" = false.
Proof.
  intros Hrep. induction s as [|c s IH]; intros Hc Hin.
  - rewrite includes_nil in Hin. discriminate.
  - destruct (startsWith (String c s) ("http://" ++ w)) eqn:E.
    + rewrite replace_hit by exact E. rewrite Hrep.
      pose proof (countOcc_hit _ _ _ (startsWith_app_l _ _ _ E) Hc) as Hs.
      destruct (includes (skip (String.length ("http://" ++ w)) (String c s)) "http://")
        eqn:F; [|reflexivity].
      change (String.length ("http://" ++ w)) with (S (String.length ("ttp://" ++ w))) in F.
      cbn [skip] in F. apply includes_skip in F. congruence.
    + rewrite includes_cons, E in Hin. cbn [orb] in Hin.
      destruct (startsWith (String c s) "http://") eqn:G.
      * pose proof (countOcc_hit _ _ _ G Hc) as Hs.
        apply includes_app_l in Hin. congruence.
      * rewrite replace_miss by exact E. rewrite includes_cons.
        rewrite countOcc_miss in Hc by exact G.
        rewrite (IH Hc Hin), orb_false_r.
        change (startsWith (String c ?r) "http://")
          with (Ascii.eqb "h" c && startsWith r "ttp://").
        change ("http://" ++ w) with (String "h" ("ttp://" ++ w)).
        rewrite startsWith_replace by reflexivity. exact G.
Qed.

Lemma startsWith_replace_http pt rp s :
  startsWith (String "h" rp) "http" = true ->
  startsWith s "http" = true ->
  startsWith (replace s (String "h" pt) (String "h" rp)) "http" = true.
Proof.
  intros Hrep Hs. destruct (startsWith s (String "h" pt)) eqn:E.
  - rewrite replace_hit by exact E. now apply startsWith_app_r.
  - destruct s as [|c s]; [discriminate|].
    rewrite replace_miss by exact E.
    change (startsWith (String c ?r) "http")
      with (Ascii.eqb "h" c && startsWith r "ttp") in *.
    rewrite startsWith_replace by reflexivity. exact Hs.
Qed.

Lemma includes_http_absent s w :
  includes s "http://" = false -> includes s ("http://" ++ w) = false.
Proof.
  intros H. destruct (includes s ("http://" ++ w)) eqn:E; [|reflexivity].
  apply includes_app_l in E. congruence.
Qed.

Lemma forceHttps_absent s : includes s "http://" = false -> forceHttps s = s.
Proof.
  intros H. unfold forceHttps.
  rewrite (replace_absent s) by (apply (includes_http_absent s "www.trafficnz.info"), H).
  apply replace_absent. apply (includes_http_absent s "trafficnz.info"), H.
Qed.

(** With at most one ["http://"] in [s], the last step either changes
    nothing or uses that occurrence up. *)
Lemma forceHttps_cases s :
  countOcc s "http://" <= 1 ->
  forceHttps s = s \/ includes (forceHttps s) "http://" = false.
Proof.
  intros Hc. unfold forceHttps.
  destruct (includes s "http://www.trafficnz.info") eqn:EA.
  - right.
    pose proof (replace_uses_up "www.trafficnz.info" "ttps://www.trafficnz.info" s
                  (fun t => eq_refl) Hc EA) as K.
    change ("http://" ++ "www.trafficnz.info") with "http://www.trafficnz.info" in K.
    rewrite (replace_absent _ "http://trafficnz.info")
      by (apply (includes_http_absent _ "trafficnz.info"), K).
    exact K.
  - rewrite (replace_absent s) by exact EA.
    destruct (includes s "http://trafficnz.info") eqn:EB.
    + right.
      exact (replace_uses_up "trafficnz.info" "ttps://www.trafficnz.info" s
               (fun t => eq_refl) Hc EB).
    + left. now apply replace_absent.
Qed.

Lemma forceHttps_startsWith_http s :
  startsWith s "http" = true -> startsWith (forceHttps s) "http" = true.
Proof.
  intros H. unfold forceHttps.
  apply (startsWith_replace_http "ttp://trafficnz.info"); [reflexivity|].
  apply (startsWith_replace_http "ttp://www.trafficnz.info"); [reflexivity|exact H].
Qed.

Lemma forceHttps_idem s :
  countOcc s "http://" <= 1 -> forceHttps (forceHttps s) = forceHttps s.
Proof.
  intros Hc. destruct (forceHttps_cases s Hc) as [E|E].
  - now rewrite !E.
  - now apply forceHttps_absent.
Qed.

End NormalizeImageUrl.

Section NormalizeImageUrlShape.

Lemma normalizeImageUrl_eq url :
  normalizeImageUrl url =
  if String.eqb url "" then ""
  else forceHttps
         (if startsWith url "http" && negb (includes url "trafficnz.info") then
            replace url "http://" "https://"
          else if startsWith url "/" then BASE_TRAFFIC_URL ++ url
          else if digitsJpg false url then BASE_TRAFFIC_URL ++ "/camera/images/" ++ url
          else if negb (startsWith url "http") then
            BASE_TRAFFIC_URL ++ "/camera/images/" ++ url
          else url).
Proof. reflexivity. Qed.

Lemma normalizeImageUrl_rooted y :
  normalizeImageUrl ("https://trafficnz.info/" ++ y)
  = "https://trafficnz.info/" ++ forceHttps y.
Proof. reflexivity. Qed.

Lemma normalizeImageUrl_fix r :
  startsWith r "http" = true -> includes r "http://" = false ->
  normalizeImageUrl r = r.
Proof.
  intros Hs Hn. pose proof (startsWith_inv _ _ Hs) as E.
  set (r' := skip (String.length "http") r) in E. clearbody r'. subst r.
  change (normalizeImageUrl ("http" ++ r'))
    with (forceHttps (if negb (includes ("http" ++ r') "trafficnz.info")
                      then replace ("http" ++ r') "http://" "https://"
                      else "http" ++ r')).
  destruct (includes ("http" ++ r') "trafficnz.info"); cbn [negb].
  - now apply forceHttps_absent.
  - rewrite replace_absent by exact Hn. now apply forceHttps_absent.
Qed.

Lemma normalizeImageUrl_absolute u' :
  normalizeImageUrl ("http" ++ u')
  = forceHttps (if negb (includes ("http" ++ u') "trafficnz.info")
                then replace ("http" ++ u') "http://" "https://"
                else "http" ++ u').
Proof. reflexivity. Qed.

Lemma normalizeImageUrl_relative u :
  String.eqb u "" = false -> startsWith u "http" = false ->
  exists y, normalizeImageUrl u = "https://trafficnz.info/" ++ forceHttps y
            /\ countOcc y "http://" = countOcc u "http://".
Proof.
  intros E0 Eh. rewrite normalizeImageUrl_eq, E0, Eh. cbn [andb negb].
  destruct (startsWith u "/") eqn:Es.
  - pose proof (startsWith_inv _ _ Es) as E.
    set (u' := skip (String.length "/") u) in E. clearbody u'. subst u.
    exists u'. split; reflexivity.
  - exists ("camera/images/" ++ u).
    destruct (digitsJpg false u); split; reflexivity.
Qed.

End NormalizeImageUrlShape.

(** C6 (as amended).  Normalizing an already normalized image URL changes
    nothing, for every reference in which ["http://"] occurs at most
    once. *)
Theorem normalizeImageUrl_idempotent_single_scheme (u : string) :
  countOcc u "http://" <= 1 ->
  normalizeImageUrl (normalizeImageUrl u) = normalizeImageUrl u.
Proof.
  intros Hc. destruct (String.eqb u "") eqn:E0.
  - apply String.eqb_eq in E0. subst u. reflexivity.
  - destruct (startsWith u "http") eqn:Eh.
    + pose proof (startsWith_inv _ _ Eh) as E.
      set (u' := skip (String.length "http") u) in E. clearbody u'. subst u.
      rewrite (normalizeImageUrl_absolute u').
      destruct (includes ("http" ++ u') "trafficnz.info") eqn:Et; cbn [negb].
      * destruct (forceHttps_cases _ Hc) as [F|F].
        -- rewrite F, normalizeImageUrl_absolute, Et. exact F.
        -- apply normalizeImageUrl_fix; [|exact F].
           now apply forceHttps_startsWith_http.
      * destruct (includes ("http" ++ u') "http://") eqn:Ei.
        -- pose proof (replace_uses_up "" "ttps://" _ (fun t => eq_refl) Hc Ei) as K.
           change ("http://" ++ "") with "http://" in K.
           change (String "h" "ttps://") with "https://" in K.
           rewrite (forceHttps_absent _ K).
           apply normalizeImageUrl_fix; [|exact K].
           now apply (startsWith_replace_http "ttp://" "ttps://").
        -- rewrite replace_absent by exact Ei.
           rewrite (forceHttps_absent _ Ei).
           now apply normalizeImageUrl_fix.
    + destruct (normalizeImageUrl_relative u E0 Eh) as (y & -> & Hy).
      rewrite normalizeImageUrl_rooted. f_equal. apply forceHttps_idem. lia.
Qed.

(** C6, at a reference with a single ["http://"]. *)
Lemma normalizeImageUrl_idempotent_witness :
  countOcc "http://www.trafficnz.info/camera/images/20.jpg" "http://" <= 1 /\
  normalizeImageUrl (normalizeImageUrl "http://www.trafficnz.info/camera/images/20.jpg")
  = normalizeImageUrl "http://www.trafficnz.info/camera/images/20.jpg".
Proof.
  split.
  - vm_compute. apply le_n.
  - apply normalizeImageUrl_idempotent_single_scheme. vm_compute. apply le_n.
Defined.

(** C6 (as stated) fails: a reference that embeds a second ["http://"] is
    rewritten once by each pass. *)
Lemma normalizeImageUrl_not_idempotent :
  normalizeImageUrl "http://a/http://b" = "https://a/http://b" /\
  normalizeImageUrl (normalizeImageUrl "http://a/http://b") = "https://a/https://b".
Proof. split; reflexivity. Qed.


(** ** The monad *)

Lemma bind_inv_ok {A B} (m : M A) (k : A -> M B) s b s' :
  bind m k s = (Ok b, s') ->
  exists a s1, m s = (Ok a, s1) /\ k a s1 = (Ok b, s').
Proof.
  unfold bind. destruct (m s) as [[a|e] s1]; [eauto|discriminate].
Qed.

Lemma bind_ok {A B} (m : M A) (k : A -> M B) s a s1 :
  m s = (Ok a, s1) -> bind m k s = k a s1.
Proof. unfold bind. now intros ->. Qed.

Section MonadFacts.

Context {A B : Type}.

(** Every element of a successful [map] is the callback's result. *)
Lemma mapM_In (f : A -> M B) l :
  forall s bs s', mapM f l s = (Ok bs, s') ->
  forall b, In b bs -> exists a s1 s2, In a l /\ f a s1 = (Ok b, s2).
Proof.
  induction l as [|a l IH]; intros s bs s' H b Hb.
  - inversion H; subst. destruct Hb.
  - cbn [mapM] in H.
    apply bind_inv_ok in H as (b0 & s1 & H0 & H).
    unfold bind in H. destruct (mapM f l s1) as [[bs0|e] s2] eqn:E; [|discriminate].
    inversion H; subst. destruct Hb as [<-|Hb].
    + exists a, s, s1. split; [now left|exact H0].
    + destruct (IH _ _ _ E _ Hb) as (a' & t1 & t2 & Ha & Hf).
      exists a', t1, t2. split; [now right|exact Hf].
Qed.

(** [map] throws as soon as the callback throws on one element. *)
Lemma mapM_throws (f : A -> M B) l a :
  In a l ->
  (forall s, exists e s', f a s = (Throw e, s')) ->
  forall s, exists e s', mapM f l s = (Throw e, s').
Proof.
  intros Ha Hf. induction l as [|x l IH]; [destruct Ha|]. intros s.
  cbn [mapM]. unfold bind at 1.
  destruct Ha as [->|Ha].
  - destruct (Hf s) as (e & s' & ->). eauto.
  - destruct (f x s) as [[b|e] s1]; [|eauto].
    unfold bind. destruct (IH Ha s1) as (e & s' & ->). eauto.
Qed.

End MonadFacts.

(** ** The orchestrator *)

(** Unfolds the monad in the goal and reduces what has become concrete. *)
Ltac run_monad :=
  repeat (progress unfold tryCatch, fetchWithTimeout, bind, emit, liftR, ret, throw);
  cbv beta iota.

Section Orchestrator.

Variable h : Host.

Lemma length_pos_nonempty {A} (l : list A) : (0 <? List.length l) = true -> l <> [].
Proof. destruct l; [discriminate|discriminate]. Qed.

(** The first [try] block never throws; when it returns records they
    are a non-empty result of [parseArcGisJson]. *)
Lemma tryArcGis_ok s :
  exists o s', tryArcGis h s = (Ok o, s') /\
    forall parsed, o = Some parsed ->
      parsed <> [] /\
      exists data s1 s2, parseArcGisJson h data s1 = (Ok parsed, s2).
Proof.
  unfold tryArcGis. run_monad.
  destruct (fetch h ARCGIS_ENDPOINT 12000) as [res|e]; run_monad.
  2:{ eexists _, _; split; [reflexivity|discriminate]. }
  destruct (Response.ok res); run_monad.
  2:{ eexists _, _; split; [reflexivity|discriminate]. }
  destruct (Response.json res) as [data|e]; run_monad.
  2:{ eexists _, _; split; [reflexivity|discriminate]. }
  match goal with |- context [parseArcGisJson h data ?s0] =>
    destruct (parseArcGisJson h data s0) as [[parsed|e] s2] eqn:P end; run_monad.
  2:{ eexists _, _; split; [reflexivity|discriminate]. }
  destruct (0 <? List.length parsed) eqn:L; run_monad.
  - eexists _, _; split; [reflexivity|].
    intros ? [= <-]. split; [now apply length_pos_nonempty|eauto].
  - eexists _, _; split; [reflexivity|discriminate].
Qed.

(** Nor does an iteration of the relay loop. *)
Lemma tryProxy_ok proxy s :
  exists o s', tryProxy h proxy s = (Ok o, s') /\
    forall parsed, o = Some parsed ->
      parsed <> [] /\
      exists xml s1 s2, parseTrafficXml h xml s1 = (Ok parsed, s2).
Proof.
  unfold tryProxy. run_monad.
  destruct (fetch h (targetUrl proxy) 12000) as [res|e]; run_monad.
  2:{ eexists _, _; split; [reflexivity|discriminate]. }
  destruct (Response.ok res); cbn [negb]; run_monad.
  1:destruct (extractBody proxy res) as [xmlText|e]; run_monad.
  1:destruct (validate xmlText) as [[xml|]|e]; run_monad.
  2-5:eexists _, _; (split; [reflexivity|discriminate]).
  match goal with |- context [parseTrafficXml h xml ?s0] =>
    destruct (parseTrafficXml h xml s0) as [[parsed|e] s2] eqn:P end; run_monad.
  2:{ eexists _, _; split; [reflexivity|discriminate]. }
  destruct (0 <? List.length parsed) eqn:L; run_monad.
  - eexists _, _; split; [reflexivity|].
    intros ? [= <-]. split; [now apply length_pos_nonempty|eauto].
  - eexists _, _; split; [reflexivity|discriminate].
Qed.

(** Where the records of the relay loop come from. *)
Lemma proxyLoop_ok proxies s :
  exists cams s', proxyLoop h proxies s = (Ok cams, s') /\ cams <> [] /\
    ((exists xml s1 s2, parseTrafficXml h xml s1 = (Ok cams, s2))
     \/ cams = FALLBACK_CAMERAS h).
Proof.
  revert s; induction proxies as [|proxy rest IH]; intros s.
  - eexists _, _; split; [reflexivity|]. split; [discriminate|now right].
  - cbn [proxyLoop].
    destruct (tryProxy_ok proxy s) as (o & s1 & E & Ho).
    rewrite (bind_ok _ _ _ _ _ E). destruct o as [parsed|].
    + destruct (Ho _ eq_refl) as [Hne Hsrc].
      eexists _, _; split; [reflexivity|]. split; [exact Hne|now left].
    + apply IH.
Qed.

(** Where the records [fetchLiveCameras] returns come from. *)
Lemma fetchLiveCameras_ok s :
  exists cams s', fetchLiveCameras h s = (Ok cams, s') /\ cams <> [] /\
    ((exists data s1 s2, parseArcGisJson h data s1 = (Ok cams, s2))
     \/ (exists xml s1 s2, parseTrafficXml h xml s1 = (Ok cams, s2))
     \/ cams = FALLBACK_CAMERAS h).
Proof.
  unfold fetchLiveCameras. unfold bind at 1, emit at 1. cbv beta iota.
  match goal with |- context [bind (tryArcGis h) _ ?s0] =>
    destruct (tryArcGis_ok s0) as (o & s1 & E & Ho) end.
  rewrite (bind_ok _ _ _ _ _ E). destruct o as [parsed|].
  - destruct (Ho _ eq_refl) as [Hne Hsrc].
    eexists _, _; split; [reflexivity|]. split; [exact Hne|now left].
  - destruct (proxyLoop_ok PROXIES s1) as (cams & s' & E' & Hne & Hsrc).
    exists cams, s'. split; [exact E'|]. split; [exact Hne|now right].
Qed.

End Orchestrator.

(** C1.  Whatever the network, the parsers and the runtime do,
    [fetchLiveCameras] returns normally, and what it returns is a
    non-empty list of records. *)
Theorem fetchLiveCameras_total_nonempty (h : Host) (s : State) :
  exists cams s', fetchLiveCameras h s = (Ok cams, s') /\ cams <> [].
Proof.
  destruct (fetchLiveCameras_ok h s) as (cams & s' & E & Hne & _). eauto.
Qed.

(** C3.  When neither the authoritative attempt nor any relay attempt
    yields a record, [fetchLiveCameras] returns the static dataset: three
    records, identified FB-AKL-01, FB-AKL-02 and FB-WLG-01 in that order. *)
Theorem fetchLiveCameras_fallback (h : Host) :
  (forall s, fst (tryArcGis h s) = Ok None) ->
  (forall proxy, In proxy PROXIES -> forall s, fst (tryProxy h proxy s) = Ok None) ->
  forall s,
    fst (fetchLiveCameras h s) = Ok (FALLBACK_CAMERAS h) /\
    map id (FALLBACK_CAMERAS h) = ["FB-AKL-01"; "FB-AKL-02"; "FB-WLG-01"].
Proof.
  intros Harc Hrelay s. split; [|reflexivity].
  assert (Hloop : forall proxies, incl proxies PROXIES ->
            forall s0, fst (proxyLoop h proxies s0) = Ok (FALLBACK_CAMERAS h)).
  { induction proxies as [|proxy rest IH]; intros Hin s0; [reflexivity|].
    cbn [proxyLoop]. unfold bind at 1.
    pose proof (Hrelay proxy (Hin _ (or_introl eq_refl)) s0) as E.
    destruct (tryProxy h proxy s0) as [r s1]. cbn [fst] in E. subst r.
    apply IH. intros x Hx. apply Hin. now right. }
  unfold fetchLiveCameras. unfold bind at 1, emit at 1. cbv beta iota.
  unfold bind at 1.
  match goal with |- context [tryArcGis h ?s0] =>
    pose proof (Harc s0) as E; destruct (tryArcGis h s0) as [r s1] end.
  cbn [fst] in E. subst r. apply Hloop, incl_refl.
Qed.

(** C3, on a runtime without network. *)
Lemma fetchLiveCameras_fallback_witness :
  fst (fetchLiveCameras Sample.offline Sample.start) = Ok (FALLBACK_CAMERAS Sample.offline) /\
  map id (FALLBACK_CAMERAS Sample.offline) = ["FB-AKL-01"; "FB-AKL-02"; "FB-WLG-01"].
Proof.
  apply fetchLiveCameras_fallback.
  - intros s. reflexivity.
  - intros proxy Hin s.
    repeat (destruct Hin as [<-|Hin]; [reflexivity|]). destruct Hin.
Defined.

(** C4.  A relay wraps an HTML error page whose doctype is written in
    lower case.  The validation of [fetchLiveCameras] compares the trimmed
    body with [<!DOCTYPE html] and [<html] letter for letter, so the page
    passes it and is handed to [DOMParser]: the iteration leaves the
    request, the parser call and the parser's error line in the trace,
    and the whole pass has parsed exactly that page. *)
Theorem lowercase_doctype_is_parsed :
  validate (JStr Scenario.lowercasePage) = Ok (Some Scenario.lowercasePage) /\
  tryProxy Scenario.lowercaseRelay
    (Proxy.mkProxy "https://api.allorigins.win/get?url=" Proxy.JsonProxy) Sample.start
  = (Ok None,
     mkState 0 3
       [FetchCall ("https://api.allorigins.win/get?url=" ++ encodeURIComponent XML_ENDPOINT);
        DomParse Scenario.lowercasePage;
        ConsoleError "Bitstream Corruption: Failed to parse XML."]) /\
  parsedTexts (trace (snd (fetchLiveCameras Scenario.lowercaseRelay Sample.start)))
  = [Scenario.lowercasePage].
Proof. repeat split; vm_compute; reflexivity. Qed.

(** X24.  A relay that answers OK with a body that is falsy (empty or
    missing), or that after trimming starts with [<!DOCTYPE html] or
    [<html], is not parsed: the iteration only adds the request and one
    warning to the trace, does not throw, and the loop goes on with the
    next relay. *)
Theorem tryProxy_rejects_html
    (h : Host) (proxy : Proxy.ProxyConfig) (rest : list Proxy.ProxyConfig)
    (s : State) (response : Response.t) (body : jsval) :
  fetch h (targetUrl proxy) 12000 = Ok response ->
  Response.ok response = true ->
  extractBody proxy response = Ok body ->
  (truthy body = false \/
   exists t, body = JStr t /\
     (startsWith (trim t) "<!DOCTYPE html" = true \/ startsWith (trim t) "<html" = true)) ->
  let s' := mkState (rnd s) (clk s)
              (trace s ++ [FetchCall (targetUrl proxy);
                           ConsoleWarn ("Node " ++ Proxy.url proxy
                                        ++ " returned invalid bitstream (HTML).")]) in
  tryProxy h proxy s = (Ok None, s') /\
  proxyLoop h (proxy :: rest) s = proxyLoop h rest s'.
Proof.
  intros Hf Hok Hb Hbad s'.
  assert (Hv : validate body = Ok None).
  { unfold validate. destruct Hbad as [Hfalsy|(t & -> & Ht)].
    - now rewrite Hfalsy.
    - destruct (truthy (JStr t)); [|reflexivity]. cbn [negb].
      destruct Ht as [Ht|Ht]; rewrite Ht; [reflexivity|].
      now rewrite orb_true_r. }
  assert (E : tryProxy h proxy s = (Ok None, s')).
  { unfold tryProxy. run_monad. rewrite Hf. run_monad. rewrite Hok. cbn [negb].
    run_monad. rewrite Hb. run_monad. rewrite Hv. run_monad.
    subst s'. cbn [rnd clk trace]. now rewrite <- app_assoc. }
  split; [exact E|].
  cbn [proxyLoop]. now rewrite (bind_ok _ _ _ _ _ E).
Qed.

(** X24, on a runtime whose first relay wraps an HTML error page. *)
Lemma tryProxy_rejects_html_witness :
  exists s',
    tryProxy Sample.relays (Proxy.mkProxy "https://api.allorigins.win/get?url=" Proxy.JsonProxy)
      Sample.start = (Ok None, s') /\
    proxyLoop Sample.relays PROXIES Sample.start
    = proxyLoop Sample.relays (tl PROXIES) s'.
Proof.
  eexists.
  apply (tryProxy_rejects_html Sample.relays
           (Proxy.mkProxy "https://api.allorigins.win/get?url=" Proxy.JsonProxy)
           (tl PROXIES) Sample.start
           (Response.make true 200 (Ok (JObj [("contents", JStr Sample.htmlPage)])) (Ok ""))
           (JStr Sample.htmlPage)).
  - reflexivity.
  - reflexivity.
  - reflexivity.
  - right. exists Sample.htmlPage. split; [reflexivity|]. left. reflexivity.
Defined.

(** ** The legacy parser *)

Section LegacyParser.

Variable h : Host.

(** What the [forEach] callback pushes. *)
Lemma cameraOfNode_some node s cam s' :
  cameraOfNode h node s = (Ok (Some cam), s') ->
  status cam = orStr (getVal node (SelTag "status")) "Operational" /\
  (exists x y, latitude cam = JNum x /\ longitude cam = JNum y /\
               JsNumber.truthy x = true /\ JsNumber.truthy y = true) /\
  imageUrl cam = normalizeImageUrl
                   (orStr (getVal node (SelTag "imageUrl")) (getVal node (SelTag "url"))) /\
  (id cam = getVal node (SelTag "id") /\ String.eqb (id cam) "" = false
   \/ getVal node (SelTag "id") = "" /\ startsWith (id cam) "node-" = true) /\
  (if includes (status cam) "Construction" then severity cam = Some medium
   else exists k, severity cam = atRandom severities (random h k)) /\
  source cam = "TrafficNZ REST v4".
Proof.
  unfold cameraOfNode.
  destruct (JsNumber.truthy _ && JsNumber.truthy _) eqn:T; [|discriminate].
  apply andb_true_iff in T as [Tx Ty].
  unfold pick, jitter, Math_random, Date_now. run_monad.
  destruct (String.eqb (getVal node (SelTag "id")) "") eqn:Eid;
    destruct (includes (orStr (getVal node (SelTag "status")) "Operational") "Construction")
      eqn:Ec; run_monad; intros [= <- <-]; cbn [status latitude longitude imageUrl id severity source];
    rewrite ?Ec; (split; [reflexivity|]); (split; [eauto 6|]); (split; [reflexivity|]);
    (split; [|split; [eauto|reflexivity]]).
  1,2: right; split; [now apply String.eqb_eq|reflexivity].
  1,2: left; split; [reflexivity|exact Eid].
Qed.

Lemma cameraOfNode_ok node s : exists o s', cameraOfNode h node s = (Ok o, s').
Proof.
  unfold cameraOfNode.
  destruct (JsNumber.truthy _ && JsNumber.truthy _); [|eexists _, _; reflexivity].
  unfold pick, jitter, Math_random, Date_now. run_monad.
  destruct (String.eqb (getVal node (SelTag "id")) "");
    destruct (includes (orStr (getVal node (SelTag "status")) "Operational") "Construction");
    run_monad; eexists _, _; reflexivity.
Qed.

Lemma forEachNode_ok nodes :
  forall s, exists cams s', forEachNode h nodes s = (Ok cams, s') /\
    forall cam, In cam cams ->
      exists node s1 s2, In node nodes /\ cameraOfNode h node s1 = (Ok (Some cam), s2).
Proof.
  induction nodes as [|node rest IH]; intros s.
  - exists [], s. split; [reflexivity|]. intros cam [].
  - destruct (cameraOfNode_ok node s) as (o & s1 & E).
    destruct (IH s1) as (cams & s2 & E2 & Hin).
    cbn [forEachNode]. rewrite (bind_ok _ _ _ _ _ E), (bind_ok _ _ _ _ _ E2).
    eexists _, _. split; [reflexivity|].
    intros cam Hcam. destruct o as [c|].
    + destruct Hcam as [<-|Hcam].
      * exists node, s, s1. split; [now left|exact E].
      * destruct (Hin _ Hcam) as (n & t1 & t2 & Hn & Hc).
        exists n, t1, t2. split; [now right|exact Hc].
    + destruct (Hin _ Hcam) as (n & t1 & t2 & Hn & Hc).
      exists n, t1, t2. split; [now right|exact Hc].
Qed.

(** [parseTrafficXml] never throws, and every record it returns was
    pushed by the callback for one of the camera nodes. *)
Lemma parseTrafficXml_ok xml s :
  exists cams s', parseTrafficXml h xml s = (Ok cams, s') /\
    forall cam, In cam cams ->
      exists node s1 s2, In node (cameraNodes (parseFromString h xml)) /\
                         cameraOfNode h node s1 = (Ok (Some cam), s2).
Proof.
  unfold parseTrafficXml. unfold bind at 1, emit at 1. cbv beta iota zeta.
  destruct (0 <? _).
  - eexists _, _. split; [reflexivity|]. intros cam [].
  - apply forEachNode_ok.
Qed.

Lemma parseTrafficXml_In xml s cams s' cam :
  parseTrafficXml h xml s = (Ok cams, s') -> In cam cams ->
  exists node s1 s2, In node (cameraNodes (parseFromString h xml)) /\
                     cameraOfNode h node s1 = (Ok (Some cam), s2).
Proof.
  intros E Hin. destruct (parseTrafficXml_ok xml s) as (cams0 & s0 & E0 & H0).
  rewrite E in E0. inversion E0; subst. now apply H0.
Qed.

End LegacyParser.


(** ** Binary64 facts behind [Math.floor(Math.random() * 6)]

    The product of a number of [[0, 1)] with six is rounded to nearest,
    and the rounding never reaches six; so the floor of the product is
    one of the indices 0 to 5. *)

Section Binary64.

Local Open Scope Z_scope.




















End Binary64.


(** The two ends: the largest number below one selects the last
    candidate, and the number one, which [Math.random()] never returns,
    would select none. *)
Lemma atRandom_edges :
  atRandom severities 0x1.fffffffffffffp-1%float = Some high /\
  atRandom severities 1%float = None.
Proof. split; vm_compute; reflexivity. Qed.




(** ** The ArcGIS parser *)

Section ArcGisParser.

Variable h : Host.

(** What the [map] callback returns. *)
Lemma arcGisFeature_some feature s cam s' :
  arcGisFeature h feature s = (Ok cam, s') ->
  startsWith (id cam) "arcgis-" = true /\
  source cam = "NZTA ArcGIS (Authoritative)" /\
  (exists props geometry coords,
      get feature "properties" = Ok props /\
      get feature "geometry" = Ok geometry /\
      get geometry "coordinates" = Ok coords /\
      at_ coords 1 = Ok (latitude cam) /\
      at_ coords 0 = Ok (longitude cam) /\
      exists img thumb,
        get props "imageurl" = Ok img /\ get props "thumburl" = Ok thumb /\
        normalizeImageUrlAny (orVal img thumb) = Ok (imageUrl cam)).
Proof.
  unfold arcGisFeature. intros H.
  repeat (apply bind_inv_ok in H as (? & ? & ? & H)).
  unfold liftR in *.
  repeat match goal with E : (_, _) = (Ok _, _) |- _ => injection E as E ? end.
  unfold ret in H. injection H as <- _.
  cbn [id source latitude longitude imageUrl].
  split; [reflexivity|]. split; [reflexivity|].
  do 3 eexists. repeat (split; [eassumption|]).
  do 2 eexists. repeat (split; [eassumption|]). assumption.
Qed.

Lemma parseArcGisJson_In data s cams s' cam :
  parseArcGisJson h data s = (Ok cams, s') -> In cam cams ->
  exists feature s1 s2, arcGisFeature h feature s1 = (Ok cam, s2).
Proof.
  unfold parseArcGisJson. intros H Hin.
  destruct (negb (truthy data)).
  { inversion H; subst. destruct Hin. }
  apply bind_inv_ok in H as (features & s1 & _ & H).
  destruct (negb (truthy features)).
  { inversion H; subst. destruct Hin. }
  destruct features; try discriminate.
  destruct (mapM_In _ _ _ _ _ H _ Hin) as (f & t1 & t2 & _ & Hf). eauto.
Qed.

(** The callback throws on a feature without geometry or coordinates. *)
Lemma arcGisFeature_throws feature :
  lacksGeometry feature = true ->
  forall s, exists e s', arcGisFeature h feature s = (Throw e, s').
Proof.
  unfold lacksGeometry, arcGisFeature. intros H s.
  destruct (get feature "properties") as [props|e]; run_monad; [|eauto].
  destruct (get feature "geometry") as [geometry|e]; [|discriminate]. run_monad.
  destruct (get geometry "coordinates") as [coords|e] eqn:Ec; run_monad.
  2:{ eauto. }
  assert (Hat : exists e, at_ coords 1 = Throw e).
  { destruct geometry; try discriminate; destruct coords; try discriminate;
      cbn [at_]; eauto. }
  destruct Hat as (e1 & Hat).
  repeat match goal with
         | |- context [match get props ?k with Ok _ => _ | Throw _ => _ end] =>
             destruct (get props k); run_monad
         | |- context [match toStringR ?n ?v with Ok _ => _ | Throw _ => _ end] =>
             destruct (toStringR n v); run_monad
         | |- context [match normalizeImageUrlAny ?v with Ok _ => _ | Throw _ => _ end] =>
             destruct (normalizeImageUrlAny v); run_monad
         end.
  all: rewrite ?Hat; eauto.
Qed.

End ArcGisParser.

(** ** What the pipeline emits *)

Lemma startsWith_nonempty s p :
  p <> "" -> startsWith s p = true -> String.eqb s "" = false.
Proof.
  destruct p as [|a p]; [congruence|]. destruct s; [discriminate|reflexivity].
Qed.

(** The records of the relay loop carry the legacy or the fallback source. *)
Lemma proxyLoop_source h proxies s cams s' cam :
  proxyLoop h proxies s = (Ok cams, s') -> In cam cams ->
  source cam = "TrafficNZ REST v4" \/ source cam = "Static Matrix Fallback".
Proof.
  intros E Hin.
  destruct (proxyLoop_ok h proxies s) as (cams0 & s0 & E0 & _ & Hsrc).
  rewrite E in E0. inversion E0; subst cams0 s0. clear E0.
  destruct Hsrc as [(xml & s1 & s2 & Hp)| ->].
  - left. destruct (parseTrafficXml_In h _ _ _ _ _ Hp Hin) as (node & t1 & t2 & _ & Hc).
    now apply cameraOfNode_some in Hc.
  - right. repeat (destruct Hin as [<-|Hin]; [reflexivity|]). destruct Hin.
Qed.

(** C10.  When the ArcGIS response is OK and its feature array holds a
    feature whose geometry, or whose coordinates, are [undefined] or
    [null], [parseArcGisJson] throws on the whole payload;
    [fetchLiveCameras] then continues with the relay loop, and none of the
    records it returns comes from the ArcGIS payload. *)
Theorem arcgis_batch_discarded
    (h : Host) (s : State) (res : Response.t) (data : jsval) (items : list jsval) :
  fetch h ARCGIS_ENDPOINT 12000 = Ok res ->
  Response.ok res = true ->
  Response.json res = Ok data ->
  get data "features" = Ok (JArr items) ->
  (exists feature, In feature items /\ lacksGeometry feature = true) ->
  (forall s0, exists e s1, parseArcGisJson h data s0 = (Throw e, s1)) /\
  (exists s1, fetchLiveCameras h s = proxyLoop h PROXIES s1) /\
  (forall cams s' cam,
      fetchLiveCameras h s = (Ok cams, s') -> In cam cams ->
      source cam = "TrafficNZ REST v4" \/ source cam = "Static Matrix Fallback").
Proof.
  intros Hf Hok Hj Hfeat (feature & Hin & Hlack).
  assert (Hthrow : forall s0, exists e s1, parseArcGisJson h data s0 = (Throw e, s1)).
  { intros s0. unfold parseArcGisJson.
    assert (Ht : truthy data = true)
      by (destruct data; try discriminate; reflexivity).
    rewrite Ht. cbn [negb]. unfold bind at 1, liftR at 1. rewrite Hfeat.
    cbn [truthy negb].
    apply (mapM_throws _ _ feature Hin). now apply arcGisFeature_throws. }
  assert (Hloop : exists s1, fetchLiveCameras h s = proxyLoop h PROXIES s1).
  { unfold fetchLiveCameras, tryArcGis. run_monad. rewrite Hf. run_monad.
    rewrite Hok. run_monad. rewrite Hj. run_monad.
    match goal with |- context [parseArcGisJson h data ?s0] =>
      destruct (Hthrow s0) as (e & s1 & ->) end.
    run_monad. eauto. }
  split; [exact Hthrow|]. split; [exact Hloop|].
  destruct Hloop as (s1 & Hloop). rewrite Hloop.
  intros cams s' cam. apply proxyLoop_source.
Qed.

(** C10, on a payload whose second feature has a [null] geometry. *)
Lemma arcgis_batch_discarded_witness :
  (forall s0, exists e s1,
      parseArcGisJson (Sample.arcGisOnly Sample.halfBroken) Sample.halfBroken s0
      = (Throw e, s1)) /\
  (exists s1, fetchLiveCameras (Sample.arcGisOnly Sample.halfBroken) Sample.start
              = proxyLoop (Sample.arcGisOnly Sample.halfBroken) PROXIES s1) /\
  (forall cams s' cam,
      fetchLiveCameras (Sample.arcGisOnly Sample.halfBroken) Sample.start = (Ok cams, s') ->
      In cam cams ->
      source cam = "TrafficNZ REST v4" \/ source cam = "Static Matrix Fallback").
Proof.
  apply (arcgis_batch_discarded (Sample.arcGisOnly Sample.halfBroken) Sample.start
           (Response.make true 200 (Ok Sample.halfBroken) (Ok ""))
           Sample.halfBroken
           [Sample.feature [("id", JStr "7")] (Sample.point 174.7 (-36.8));
            Sample.feature [("id", JStr "8")] JNull]).
  - reflexivity.
  - reflexivity.
  - reflexivity.
  - reflexivity.
  - exists (Sample.feature [("id", JStr "8")] JNull). split; [right; left|]; reflexivity.
Defined.

(** C8 (as amended).  Every record [fetchLiveCameras] returns has a
    non-empty identifier. *)
Theorem emitted_id_nonempty
    (h : Host) (s s' : State) (cams : list TrafficCamera) (cam : TrafficCamera) :
  fetchLiveCameras h s = (Ok cams, s') ->
  In cam cams ->
  String.eqb (id cam) "" = false.
Proof.
  intros E Hin.
  destruct (fetchLiveCameras_ok h s) as (cams0 & s0 & E0 & _ & Hsrc).
  rewrite E in E0. inversion E0; subst cams0 s0. clear E0.
  destruct Hsrc as [(data & s1 & s2 & Hp)|[(xml & s1 & s2 & Hp)| ->]].
  - destruct (parseArcGisJson_In h _ _ _ _ _ Hp Hin) as (f & t1 & t2 & Hf).
    apply arcGisFeature_some in Hf as (Hid & _).
    apply (startsWith_nonempty _ "arcgis-"); [discriminate|exact Hid].
  - destruct (parseTrafficXml_In h _ _ _ _ _ Hp Hin) as (node & t1 & t2 & _ & Hc).
    apply cameraOfNode_some in Hc as (_ & _ & _ & [[_ Hid]|[_ Hid]] & _).
    + exact Hid.
    + apply (startsWith_nonempty _ "node-"); [discriminate|exact Hid].
  - repeat (destruct Hin as [<-|Hin]; [reflexivity|]). destruct Hin.
Qed.

(** C8, on the first record the second relay of the sample runtime yields. *)
Lemma emitted_id_nonempty_witness :
  String.eqb (id (hd (mkCamera "" JNull JNull "" JNull JNull JNull JNull [] "" "" ""
                        None None 0%float "")
                    (match fst (fetchLiveCameras Sample.relays Sample.start) with
                     | Ok cams => cams
                     | Throw _ => []
                     end))) "" = false.
Proof.
  pose (run := fetchLiveCameras Sample.relays Sample.start).
  apply (emitted_id_nonempty Sample.relays Sample.start (snd run)
           (match fst run with Ok cams => cams | Throw _ => [] end)).
  - vm_compute. reflexivity.
  - vm_compute. left. reflexivity.
Defined.

(** C8 (as stated) fails: two camera nodes without [id], whose
    identifiers are synthesized from two distinct random numbers that agree
    on their first five digits in base 36, are both identified
    [node-i0000]. *)
Lemma synthesized_ids_collide :
  PrimFloat.eqb (Sample.closeDraws 0) (Sample.closeDraws 4) = false /\
  match fst (fetchLiveCameras Sample.twins Sample.start) with
  | Ok cams => map id cams
  | Throw _ => []
  end = ["node-i0000"; "node-i0000"].
Proof. split; vm_compute; reflexivity. Qed.

(** Nor are identifiers distinct on the ArcGIS path: two features that
    carry neither [id] nor [ObjectId] are both identified
    [arcgis-undefined]. *)
Lemma arcgis_ids_collide :
  match fst (fetchLiveCameras (Sample.arcGisOnly Sample.anonymous) Sample.start) with
  | Ok cams => map id cams
  | Throw _ => []
  end = ["arcgis-undefined"; "arcgis-undefined"].
Proof. vm_compute. reflexivity. Qed.

(** C2 on the ArcGIS path: a feature located at (0, 0) is emitted with
    latitude 0 and longitude 0. *)
Lemma arcgis_emits_zero_coordinates :
  match fst (fetchLiveCameras (Sample.arcGisOnly Sample.nullIsland) Sample.start) with
  | Ok cams => map (fun cam => (latitude cam, longitude cam)) cams
  | Throw _ => []
  end = [(JNum 0%float, JNum 0%float)].
Proof. vm_compute. reflexivity. Qed.

(** C2 on the other two paths: the legacy parser only emits records whose
    coordinates are numbers other than [NaN] and zero, and so are those of
    the static dataset. *)
Lemma legacy_and_fallback_coordinates (h : Host) :
  (forall xml s cams s' cam,
      parseTrafficXml h xml s = (Ok cams, s') -> In cam cams ->
      exists x y, latitude cam = JNum x /\ longitude cam = JNum y /\
                  JsNumber.truthy x = true /\ JsNumber.truthy y = true) /\
  (forall cam, In cam (FALLBACK_CAMERAS h) ->
      exists x y, latitude cam = JNum x /\ longitude cam = JNum y /\
                  JsNumber.truthy x = true /\ JsNumber.truthy y = true).
Proof.
  split.
  - intros xml s cams s' cam E Hin.
    destruct (parseTrafficXml_In h _ _ _ _ _ E Hin) as (node & t1 & t2 & _ & Hc).
    now apply cameraOfNode_some in Hc.
  - intros cam Hin.
    repeat (destruct Hin as [<-|Hin];
            [do 2 eexists; repeat split; reflexivity|]).
    destruct Hin.
Qed.

(** C7.  An image served over plain HTTP by a subdomain of
    trafficnz.info is not upgraded: [normalizeImageUrl] returns the
    reference as it came, and the ArcGIS parser emits the record with that
    [http://] URL.  (Nor is a relative reference whose name starts with
    [http] made absolute.) *)
Theorem plain_http_image_emitted :
  normalizeImageUrl "http://cdn.trafficnz.info/a.jpg" = "http://cdn.trafficnz.info/a.jpg" /\
  startsWith (normalizeImageUrl "http://cdn.trafficnz.info/a.jpg") "https://" = false /\
  normalizeImageUrl "httpfoo.jpg" = "httpfoo.jpg" /\
  match fst (fetchLiveCameras (Sample.arcGisOnly Scenario.cdnCamera) Sample.start) with
  | Ok cams => map (fun cam => (id cam, imageUrl cam)) cams
  | Throw _ => []
  end = [("arcgis-7", "http://cdn.trafficnz.info/a.jpg")].
Proof. repeat split; vm_compute; reflexivity. Qed.



(** The guard [if (!url) return ""] at work: a camera node without any
    image reference is emitted with the empty string as its image URL. *)
Lemma emitted_imageUrl_empty :
  match fst (parseTrafficXml Sample.relays Sample.legacyXml Sample.start) with
  | Ok cams => map imageUrl cams
  | Throw _ => []
  end = [""; "https://trafficnz.info/camera/images/20.jpg"] /\
  startsWith "" "https://" = false.
Proof. split; vm_compute; reflexivity. Qed.

(** ** The coordinate formulas, idealised *)

(** Over the real numbers the formulas of [mercatorToLatLng] undo the
    forward projection exactly, for every latitude strictly between the
    poles.  (C9 itself speaks of the binary64 results and a tolerance,
    which this development does not model.) *)
Lemma mercatorToLatLngR_inverse (lat lng : R) :
  (-90 < lat < 90)%R ->
  mercatorToLatLngR (fst (latLngToMercatorR lat lng)) (snd (latLngToMercatorR lat lng))
  = (lat, lng).
Proof.
  intros [Hlo Hhi]. unfold mercatorToLatLngR, latLngToMercatorR. cbn [fst snd].
  pose proof PI_RGT_0 as Hpi.
  set (a := (PI / 4 + lat * (PI / 180) / 2)%R).
  assert (Ha : (0 < a < PI / 2)%R).
  { subst a. split.
    - assert ((lat + 90) * PI > 0)%R by (apply Rmult_lt_0_compat; lra). lra.
    - assert ((90 - lat) * PI > 0)%R by (apply Rmult_lt_0_compat; lra). lra. }
  f_equal.
  - replace (6378137 * ln (tan a) / 6378137)%R with (ln (tan a)) by (field; lra).
    rewrite exp_ln by (apply tan_gt_0; lra).
    rewrite atan_tan by lra.
    subst a. field. lra.
  - field. lra.
Qed.

(* ================================================================== *)
(** * Further properties of the service *)
(* ================================================================== *)

(** ** What the parsers leave in the trace *)

Lemma fetchedUrls_app d1 d2 :
  fetchedUrls (d1 ++ d2) = (fetchedUrls d1 ++ fetchedUrls d2)%list.
Proof.
  induction d1 as [|e d1 IH]; [reflexivity|].
  destruct e; cbn [app fetchedUrls]; rewrite IH; reflexivity.
Qed.

Lemma parsedTexts_app d1 d2 :
  parsedTexts (d1 ++ d2) = (parsedTexts d1 ++ parsedTexts d2)%list.
Proof.
  induction d1 as [|e d1 IH]; [reflexivity|].
  destruct e; cbn [app parsedTexts]; rewrite IH; reflexivity.
Qed.

Lemma mapM_trace {A B} (f : A -> M B) :
  (forall a s r s', f a s = (r, s') -> trace s' = trace s) ->
  forall l s r s', mapM f l s = (r, s') -> trace s' = trace s.
Proof.
  intros Hf. induction l as [|a l IH]; intros s r s' H.
  - inversion H; reflexivity.
  - cbn [mapM] in H. unfold bind at 1 in H.
    destruct (f a s) as [[b|e] s1] eqn:E1.
    + unfold bind at 1 in H. destruct (mapM f l s1) as [[bs|e] s2] eqn:E2.
      * inversion H; subst. rewrite (IH _ _ _ E2). exact (Hf _ _ _ _ E1).
      * inversion H; subst. rewrite (IH _ _ _ E2). exact (Hf _ _ _ _ E1).
    + inversion H; subst. exact (Hf _ _ _ _ E1).
Qed.

Lemma arcGisFeature_trace h feature s r s' :
  arcGisFeature h feature s = (r, s') -> trace s' = trace s.
Proof.
  unfold arcGisFeature, pick, jitter, Math_random, Date_now. run_monad.
  repeat match goal with
         | |- context [match ?x with Ok _ => _ | Throw _ => _ end] =>
             destruct x; run_monad
         | |- context [if ?b then _ else _] => destruct b; run_monad
         end;
    intros [= <- <-]; reflexivity.
Qed.

Lemma parseArcGisJson_trace h data s r s' :
  parseArcGisJson h data s = (r, s') -> trace s' = trace s.
Proof.
  unfold parseArcGisJson.
  destruct (negb (truthy data)); [intros [= <- <-]; reflexivity|].
  unfold bind at 1, liftR at 1.
  destruct (get data "features") as [features|e]; [|intros [= <- <-]; reflexivity].
  destruct (negb (truthy features)); [intros [= <- <-]; reflexivity|].
  destruct features; try (intros [= <- <-]; reflexivity).
  apply mapM_trace. intros a. apply arcGisFeature_trace.
Qed.

Lemma cameraOfNode_trace h node s r s' :
  cameraOfNode h node s = (r, s') -> trace s' = trace s.
Proof.
  unfold cameraOfNode.
  destruct (JsNumber.truthy _ && JsNumber.truthy _); [|intros [= <- <-]; reflexivity].
  unfold pick, jitter, Math_random, Date_now. run_monad.
  destruct (String.eqb (getVal node (SelTag "id")) "");
    destruct (includes (orStr (getVal node (SelTag "status")) "Operational") "Construction");
    run_monad; intros [= <- <-]; reflexivity.
Qed.

(** ** The legacy parser, node by node *)

Lemma find_app {A} (f : A -> bool) l1 l2 :
  find f (l1 ++ l2) = match find f l1 with Some x => Some x | None => find f l2 end.
Proof.
  induction l1 as [|a l1 IH]; [reflexivity|].
  cbn [app find]. destruct (f a); [reflexivity|exact IH].
Qed.

(** A selector that does not ask for the parent [t1] or [t2] finds the
    same descendant below a node tagged [t1] and one tagged [t2]. *)
Lemma querySelector_tag sel t1 t2 cs :
  match sel with
  | SelTag _ => true
  | SelChild p _ => Bool.eqb (String.eqb t1 p) (String.eqb t2 p)
  end = true ->
  Dom.querySelector (XElem t1 cs) sel = Dom.querySelector (XElem t2 cs) sel.
Proof.
  intros Hsel. unfold Dom.querySelector.
  induction cs as [|c cs IH]; [reflexivity|].
  cbn [flat_map]. rewrite !find_app.
  destruct c as [tc ccs|d]; [|exact IH].
  cbn [Dom.walk find].
  replace (Dom.matches sel (Some t1, XElem tc ccs))
    with (Dom.matches sel (Some t2, XElem tc ccs)).
  - destruct (Dom.matches sel (Some t2, XElem tc ccs)); [reflexivity|].
    destruct (find (Dom.matches sel) (flat_map (Dom.walk (Some tc)) ccs));
      [reflexivity|exact IH].
  - destruct sel as [t|p t]; [reflexivity|].
    cbn [Dom.matches fst snd]. apply Bool.eqb_prop in Hsel. now rewrite Hsel.
Qed.

Lemma getVal_camera_tag cs sel :
  match sel with
  | SelTag _ => true
  | SelChild p _ => Bool.eqb (String.eqb "camera" p) (String.eqb "trafficCamera" p)
  end = true ->
  getVal (XElem "camera" cs) sel = getVal (XElem "trafficCamera" cs) sel.
Proof.
  intros Hsel. unfold getVal. now rewrite (querySelector_tag sel _ _ cs Hsel).
Qed.

(** X2.  The callback treats a v3 [camera] node and a v4 [trafficCamera]
    node with the same content alike: same record, same draws, from every
    state. *)
Theorem cameraOfNode_tag_scheme (h : Host) (cs : list xnode) (s : State) :
  cameraOfNode h (XElem "camera" cs) s = cameraOfNode h (XElem "trafficCamera" cs) s.
Proof.
  unfold cameraOfNode.
  repeat rewrite (getVal_camera_tag cs) by reflexivity.
  reflexivity.
Qed.

Lemma cameraOfNode_cases h node s :
  (locatable h node = true /\
   exists cam s', cameraOfNode h node s = (Ok (Some cam), s') /\
                  latitude cam = JNum (nodeLat h node) /\
                  longitude cam = JNum (nodeLng h node))
  \/ (locatable h node = false /\ cameraOfNode h node s = (Ok None, s)).
Proof.
  unfold locatable, nodeLat, nodeLng, cameraOfNode.
  destruct (JsNumber.truthy _ && JsNumber.truthy _); [left|right; split; reflexivity].
  split; [reflexivity|].
  unfold pick, jitter, Math_random, Date_now. run_monad.
  destruct (String.eqb (getVal node (SelTag "id")) "");
    destruct (includes (orStr (getVal node (SelTag "status")) "Operational") "Construction");
    run_monad; eexists _, _; (split; [reflexivity|split; reflexivity]).
Qed.

Lemma forEachNode_coordinates h nodes :
  forall s, exists cams s',
    forEachNode h nodes s = (Ok cams, s') /\
    trace s' = trace s /\
    map (fun cam => (latitude cam, longitude cam)) cams
    = map (fun node => (JNum (nodeLat h node), JNum (nodeLng h node)))
        (filter (locatable h) nodes).
Proof.
  induction nodes as [|node rest IH]; intros s.
  - exists [], s. repeat split.
  - cbn [forEachNode filter].
    destruct (cameraOfNode_cases h node s)
      as [(Hl & cam & s1 & E & Hlat & Hlng)|(Hl & E)]; rewrite Hl.
    + destruct (IH s1) as (cams & s2 & E2 & Ht & Hmap).
      rewrite (bind_ok _ _ _ _ _ E), (bind_ok _ _ _ _ _ E2).
      eexists _, _. split; [reflexivity|]. split.
      * rewrite Ht. exact (cameraOfNode_trace _ _ _ _ _ E).
      * cbn [map]. now rewrite Hlat, Hlng, Hmap.
    + destruct (IH s) as (cams & s2 & E2 & Ht & Hmap).
      rewrite (bind_ok _ _ _ _ _ E), (bind_ok _ _ _ _ _ E2).
      eexists _, _. split; [reflexivity|]. split; assumption.
Qed.

(** X3.  [parseTrafficXml] never throws.  From a document without
    [parsererror] it emits exactly the camera nodes whose two coordinates
    are numbers other than [NaN] and zero, in document order and with
    those coordinates; from a document with a [parsererror] it emits
    nothing. *)
Theorem parseTrafficXml_emits_locatable (h : Host) (xml : string) (s : State) :
  exists cams s',
    parseTrafficXml h xml s = (Ok cams, s') /\
    map (fun cam => (latitude cam, longitude cam)) cams
    = match Dom.getElementsByTagName (parseFromString h xml) "parsererror" with
      | [] => map (fun node => (JNum (nodeLat h node), JNum (nodeLng h node)))
                (filter (locatable h) (cameraNodes (parseFromString h xml)))
      | _ :: _ => []
      end.
Proof.
  unfold parseTrafficXml. unfold bind at 1, emit at 1. cbv beta iota zeta.
  destruct (Dom.getElementsByTagName (parseFromString h xml) "parsererror") as [|e l].
  - cbn [List.length Nat.ltb Nat.leb].
    match goal with |- context [forEachNode h ?ns ?s0] =>
      destruct (forEachNode_coordinates h ns s0) as (cams & s' & E & _ & Hmap) end.
    exists cams, s'. split; assumption.
  - cbn [List.length Nat.ltb Nat.leb]. eexists _, _. split; reflexivity.
Qed.

(** X1.  On a document that holds a [parsererror], [parseTrafficXml]
    returns the empty list; it logs one error after the parse, and draws
    no random number and reads no clock. *)
Theorem parseTrafficXml_malformed (h : Host) (xml : string) (s : State) :
  Dom.getElementsByTagName (parseFromString h xml) "parsererror" <> [] ->
  parseTrafficXml h xml s
  = (Ok [], mkState (rnd s) (clk s)
              (trace s ++ [DomParse xml;
                           ConsoleError "Bitstream Corruption: Failed to parse XML."])).
Proof.
  intros Herr. unfold parseTrafficXml. unfold bind at 1, emit at 1. cbv beta iota zeta.
  destruct (Dom.getElementsByTagName (parseFromString h xml) "parsererror") as [|e l];
    [congruence|].
  cbn [List.length Nat.ltb Nat.leb]. run_monad. cbn [rnd clk trace].
  now rewrite <- app_assoc.
Qed.

(** X1, on a runtime whose parser reports an error for every input. *)
Lemma parseTrafficXml_malformed_witness :
  parseTrafficXml Sample.offline "<camera" Sample.start
  = (Ok [], mkState 0 3 [DomParse "<camera";
                         ConsoleError "Bitstream Corruption: Failed to parse XML."]).
Proof.
  apply (parseTrafficXml_malformed Sample.offline "<camera" Sample.start).
  vm_compute. discriminate.
Defined.

(** ** The ArcGIS parser, feature by feature *)

Lemma mapM_Forall2 {A B} (f : A -> M B) (R : A -> B -> Prop) :
  (forall a s b s', f a s = (Ok b, s') -> R a b) ->
  forall l s bs s', mapM f l s = (Ok bs, s') -> Forall2 R l bs.
Proof.
  intros Hf. induction l as [|a l IH]; intros s bs s' H.
  - inversion H. constructor.
  - cbn [mapM] in H. apply bind_inv_ok in H as (b & s1 & Hb & H).
    apply bind_inv_ok in H as (bs0 & s2 & Hbs & H).
    inversion H; subst. constructor; [exact (Hf _ _ _ _ Hb)|exact (IH _ _ _ Hbs)].
Qed.

Lemma arcGisFeature_madeFrom h feature s cam s' :
  arcGisFeature h feature s = (Ok cam, s') -> madeFrom feature cam.
Proof.
  unfold arcGisFeature. intros H.
  repeat (apply bind_inv_ok in H as (? & ? & ? & H)).
  unfold liftR in *.
  repeat match goal with E : (_, _) = (Ok _, _) |- _ => injection E as E ? end.
  unfold ret in H. injection H as <- _.
  unfold madeFrom. cbn [latitude longitude status].
  do 4 eexists. repeat (split; [eassumption|]). reflexivity.
Qed.

(** X4.  When [parseArcGisJson] succeeds on a payload whose [features] is
    an array, it returns one record per feature, in order, none dropped;
    each record takes its latitude from the second coordinate and its
    longitude from the first, and is [Offline] exactly when the feature's
    [offline] attribute is the string ["true"]. *)
Theorem parseArcGisJson_one_per_feature
    (h : Host) (data : jsval) (items : list jsval) (s s' : State)
    (cams : list TrafficCamera) :
  get data "features" = Ok (JArr items) ->
  parseArcGisJson h data s = (Ok cams, s') ->
  Forall2 madeFrom items cams /\ List.length cams = List.length items.
Proof.
  intros Hfeat H.
  assert (Ht : truthy data = true) by (destruct data; try discriminate; reflexivity).
  unfold parseArcGisJson in H. rewrite Ht in H. cbn [negb] in H.
  unfold bind at 1, liftR at 1 in H. rewrite Hfeat in H. cbn [truthy negb] in H.
  assert (F : Forall2 madeFrom items cams).
  { apply (mapM_Forall2 _ _ (fun a s0 b s1 => arcGisFeature_madeFrom h a s0 b s1) _ _ _ _ H). }
  split; [exact F|]. symmetry. exact (Forall2_length F).
Qed.

(** X4, on the payload with two anonymous features. *)
Lemma parseArcGisJson_one_per_feature_witness :
  exists cams s',
    parseArcGisJson Sample.offline Sample.anonymous Sample.start = (Ok cams, s') /\
    Forall2 madeFrom
      [Sample.feature [("name", JStr "SH1 North")] (Sample.point 174.7 (-36.8));
       Sample.feature [("name", JStr "SH1 South")] (Sample.point 174.75 (-36.83))]
      cams /\
    List.length cams = 2.
Proof.
  pose (run := parseArcGisJson Sample.offline Sample.anonymous Sample.start).
  exists (match fst run with Ok l => l | Throw _ => [] end), (snd run).
  assert (E : run = (Ok (match fst run with Ok l => l | Throw _ => [] end), snd run))
    by (vm_compute; reflexivity).
  split; [exact E|].
  exact (parseArcGisJson_one_per_feature Sample.offline Sample.anonymous _
           Sample.start (snd run) _ eq_refl E).
Defined.

(** X5.  When the ArcGIS response is OK but its payload is falsy, or its
    [features] is falsy or an empty array, nothing is thrown and nothing
    is logged: [fetchLiveCameras] goes on to the relay loop right after
    the request, with no random number drawn. *)
Theorem arcgis_empty_goes_to_relays
    (h : Host) (s : State) (res : Response.t) (data : jsval) :
  fetch h ARCGIS_ENDPOINT 12000 = Ok res ->
  Response.ok res = true ->
  Response.json res = Ok data ->
  (truthy data = false \/
   exists features, get data "features" = Ok features /\
                    (truthy features = false \/ features = JArr [])) ->
  fetchLiveCameras h s
  = proxyLoop h PROXIES
      (mkState (rnd s) (clk s)
         (trace s ++ [ConsoleLog "Initiating Traffic Matrix Sync (ArcGIS + REST v4)...";
                      FetchCall ARCGIS_ENDPOINT])).
Proof.
  intros Hf Hok Hj Hempty.
  assert (Hp : forall s0, parseArcGisJson h data s0 = (Ok [], s0)).
  { intros s0. unfold parseArcGisJson.
    destruct Hempty as [Hd|(features & Hfeat & [Hfalsy| ->])].
    - now rewrite Hd.
    - destruct (truthy data); [|reflexivity]. cbn [negb].
      unfold bind, liftR. rewrite Hfeat, Hfalsy. reflexivity.
    - destruct (truthy data); [|reflexivity]. cbn [negb].
      unfold bind, liftR. rewrite Hfeat. reflexivity. }
  unfold fetchLiveCameras, tryArcGis. run_monad. rewrite Hf. run_monad.
  rewrite Hok. run_monad. rewrite Hj. run_monad. rewrite Hp. run_monad.
  cbn [List.length Nat.ltb Nat.leb rnd clk trace]. run_monad.
  now rewrite <- app_assoc.
Qed.

(** X5, on a runtime whose ArcGIS endpoint answers with an empty
    feature collection. *)
Lemma arcgis_empty_goes_to_relays_witness :
  fetchLiveCameras (Sample.arcGisOnly (Sample.collection [])) Sample.start
  = proxyLoop (Sample.arcGisOnly (Sample.collection [])) PROXIES
      (mkState 0 3
         [ConsoleLog "Initiating Traffic Matrix Sync (ArcGIS + REST v4)...";
          FetchCall ARCGIS_ENDPOINT]).
Proof.
  apply (arcgis_empty_goes_to_relays (Sample.arcGisOnly (Sample.collection [])) Sample.start
           (Response.make true 200 (Ok (Sample.collection [])) (Ok ""))
           (Sample.collection [])).
  - reflexivity.
  - reflexivity.
  - reflexivity.
  - right. exists (JArr []). split; [reflexivity|]. right. reflexivity.
Defined.

(** ** The requests of a synchronisation pass *)

Section Requests.

Variable h : Host.

Lemma parseTrafficXml_shape xml s :
  exists cams s' d,
    parseTrafficXml h xml s = (Ok cams, s') /\
    trace s' = (trace s ++ d)%list /\
    fetchedUrls d = [] /\ parsedTexts d = [xml] /\
    Forall (fun cam => source cam = "TrafficNZ REST v4") cams.
Proof.
  assert (Hsrc : forall cams s', parseTrafficXml h xml s = (Ok cams, s') ->
                   Forall (fun cam => source cam = "TrafficNZ REST v4") cams).
  { intros cams s' E. apply Forall_forall. intros cam Hin.
    destruct (parseTrafficXml_In h _ _ _ _ _ E Hin) as (node & t1 & t2 & _ & Hc).
    now apply cameraOfNode_some in Hc. }
  revert Hsrc.
  unfold parseTrafficXml. unfold bind at 1 2, emit at 1 2. cbv beta iota zeta.
  destruct (0 <? _).
  - intros Hsrc. run_monad. cbn [rnd clk trace].
    eexists _, _, [DomParse xml; ConsoleError _].
    split; [reflexivity|]. rewrite <- app_assoc.
    repeat split. constructor.
  - match goal with |- context [forEachNode h ?ns ?s0] =>
      destruct (forEachNode_coordinates h ns s0) as (cams & s' & E & Ht & _) end.
    intros Hsrc. exists cams, s', [DomParse xml]. split; [exact E|].
    split; [exact Ht|]. repeat split. exact (Hsrc _ _ E).
Qed.

Lemma tryArcGis_shape s :
  exists o s' d,
    tryArcGis h s = (Ok o, s') /\
    trace s' = (trace s ++ FetchCall ARCGIS_ENDPOINT :: d)%list /\
    fetchedUrls d = [] /\ parsedTexts d = [] /\
    match o with
    | Some parsed =>
        parsed <> [] /\
        Forall (fun cam => source cam = "NZTA ArcGIS (Authoritative)") parsed /\
        d = [ConsoleLog ("Synchronization Successful: " ++ ofNat (List.length parsed)
                         ++ " authoritative nodes from ArcGIS")]
    | None => True
    end.
Proof.
  unfold tryArcGis. run_monad.
  destruct (fetch h ARCGIS_ENDPOINT 12000) as [res|e]; run_monad.
  2:{ eexists None, _, [ConsoleWarn _]. cbn [rnd clk trace].
      split; [reflexivity|]. rewrite <- app_assoc. repeat split. }
  destruct (Response.ok res); run_monad.
  2:{ eexists None, _, []. cbn [rnd clk trace]. repeat split. }
  destruct (Response.json res) as [data|e]; run_monad.
  2:{ eexists None, _, [ConsoleWarn _]. cbn [rnd clk trace].
      split; [reflexivity|]. rewrite <- app_assoc. repeat split. }
  match goal with |- context [parseArcGisJson h data ?s0] =>
    destruct (parseArcGisJson h data s0) as [[parsed|e] s2] eqn:P end; run_monad;
    pose proof (parseArcGisJson_trace _ _ _ _ _ P) as Ht; cbn [trace] in Ht.
  2:{ eexists None, _, [ConsoleWarn _]. cbn [rnd clk trace].
      split; [reflexivity|]. rewrite Ht, <- app_assoc. repeat split. }
  destruct (0 <? List.length parsed) eqn:L; run_monad.
  - eexists (Some parsed), _, [ConsoleLog _]. cbn [rnd clk trace].
    split; [reflexivity|]. rewrite Ht, <- app_assoc.
    repeat split.
    + now apply length_pos_nonempty.
    + apply Forall_forall. intros cam Hin.
      destruct (parseArcGisJson_In h _ _ _ _ _ P Hin) as (f & t1 & t2 & Hf).
      now apply arcGisFeature_some in Hf.
  - eexists None, _, []. split; [reflexivity|]. rewrite Ht. repeat split.
Qed.

Lemma tryProxy_shape proxy s :
  exists o s' d,
    tryProxy h proxy s = (Ok o, s') /\
    trace s' = (trace s ++ FetchCall (targetUrl proxy) :: d)%list /\
    fetchedUrls d = [] /\
    match o with
    | Some parsed =>
        parsed <> [] /\ Forall (fun cam => source cam = "TrafficNZ REST v4") parsed
    | None => True
    end.
Proof.
  unfold tryProxy. run_monad.
  destruct (fetch h (targetUrl proxy) 12000) as [res|e]; run_monad.
  2:{ eexists None, _, [ConsoleWarn _]. cbn [rnd clk trace].
      split; [reflexivity|]. rewrite <- app_assoc. repeat split. }
  destruct (Response.ok res); cbn [negb]; run_monad.
  2:{ eexists None, _, [ConsoleWarn _]. cbn [rnd clk trace].
      split; [reflexivity|]. rewrite <- app_assoc. repeat split. }
  destruct (extractBody proxy res) as [xmlText|e]; run_monad.
  2:{ eexists None, _, [ConsoleWarn _]. cbn [rnd clk trace].
      split; [reflexivity|]. rewrite <- app_assoc. repeat split. }
  destruct (validate xmlText) as [[xml|]|e]; run_monad.
  2,3: eexists None, _, [ConsoleWarn _]; cbn [rnd clk trace];
       (split; [reflexivity|]); rewrite <- app_assoc; repeat split.
  match goal with |- context [parseTrafficXml h xml ?s0] =>
    destruct (parseTrafficXml_shape xml s0)
      as (parsed & s2 & d & P & Ht & Hfu & _ & Hsrc) end.
  rewrite P. run_monad. cbn [trace] in Ht.
  destruct (0 <? List.length parsed) eqn:L; run_monad.
  - eexists (Some parsed), _, (d ++ [ConsoleLog _])%list. cbn [rnd clk trace].
    split; [reflexivity|]. rewrite Ht, <- !app_assoc. cbn [app].
    split; [reflexivity|]. rewrite fetchedUrls_app, Hfu.
    repeat split; [now apply length_pos_nonempty|exact Hsrc].
  - eexists None, _, d. split; [reflexivity|]. rewrite Ht, <- app_assoc.
    repeat split. exact Hfu.
Qed.

Lemma proxyLoop_shape proxies :
  forall s, exists cams s' d n,
    proxyLoop h proxies s = (Ok cams, s') /\
    trace s' = (trace s ++ d)%list /\
    fetchedUrls d = firstn n (map targetUrl proxies) /\
    ((cams <> [] /\ Forall (fun cam => source cam = "TrafficNZ REST v4") cams)
     \/ (cams = FALLBACK_CAMERAS h /\ fetchedUrls d = map targetUrl proxies)).
Proof.
  induction proxies as [|proxy rest IH]; intros s.
  - eexists _, _, [ConsoleError _], 0. cbn [proxyLoop]. run_monad.
    split; [reflexivity|]. repeat split. right. split; reflexivity.
  - cbn [proxyLoop].
    destruct (tryProxy_shape proxy s) as (o & s1 & d1 & E & Ht & Hfu & Ho).
    rewrite (bind_ok _ _ _ _ _ E). destruct o as [parsed|].
    + exists parsed, s1, (FetchCall (targetUrl proxy) :: d1), 1.
      split; [reflexivity|]. split; [exact Ht|].
      cbn [fetchedUrls map firstn]. rewrite Hfu. split; [reflexivity|]. now left.
    + destruct (IH s1) as (cams & s' & d & n & E' & Ht' & Hfu' & Hsrc).
      exists cams, s', (FetchCall (targetUrl proxy) :: d1 ++ d)%list, (S n).
      split; [exact E'|]. split.
      { rewrite Ht', Ht, <- app_assoc. reflexivity. }
      cbn [fetchedUrls map firstn]. rewrite fetchedUrls_app, Hfu, Hfu'. cbn [app].
      split; [reflexivity|].
      destruct Hsrc as [Hl|[Hc Hall]]; [now left|right].
      split; [exact Hc|]. now rewrite <- Hfu', Hall.
Qed.

Lemma fetchLiveCameras_shape s :
  exists cams s' d n,
    fetchLiveCameras h s = (Ok cams, s') /\
    trace s' = (trace s ++ d)%list /\
    fetchedUrls d = firstn (S n) (ARCGIS_ENDPOINT :: map targetUrl PROXIES) /\
    ((Forall (fun cam => source cam = "NZTA ArcGIS (Authoritative)") cams /\
      d = [ConsoleLog "Initiating Traffic Matrix Sync (ArcGIS + REST v4)...";
           FetchCall ARCGIS_ENDPOINT;
           ConsoleLog ("Synchronization Successful: " ++ ofNat (List.length cams)
                       ++ " authoritative nodes from ArcGIS")])
     \/ (cams <> [] /\ Forall (fun cam => source cam = "TrafficNZ REST v4") cams)
     \/ (cams = FALLBACK_CAMERAS h /\
         fetchedUrls d = ARCGIS_ENDPOINT :: map targetUrl PROXIES)).
Proof.
  unfold fetchLiveCameras. unfold bind at 1, emit at 1. cbv beta iota.
  match goal with |- context [bind (tryArcGis h) _ ?s0] =>
    destruct (tryArcGis_shape s0) as (o & s1 & d1 & E & Ht & Hfu & _ & Ho) end.
  cbn [trace] in Ht. rewrite (bind_ok _ _ _ _ _ E). destruct o as [parsed|].
  - destruct Ho as (_ & Hsrc & ->).
    eexists parsed, s1, _, 0. split; [reflexivity|].
    split; [rewrite Ht, <- app_assoc; reflexivity|].
    split; [reflexivity|]. left. split; [exact Hsrc|reflexivity].
  - destruct (proxyLoop_shape PROXIES s1) as (cams & s' & d & n & E' & Ht' & Hfu' & Hsrc).
    exists cams, s', (ConsoleLog "Initiating Traffic Matrix Sync (ArcGIS + REST v4)..."
                      :: FetchCall ARCGIS_ENDPOINT :: d1 ++ d)%list, n.
    split; [exact E'|]. split.
    { rewrite Ht', Ht, <- !app_assoc. reflexivity. }
    cbn [fetchedUrls]. rewrite fetchedUrls_app, Hfu, Hfu'. cbn [app firstn].
    split; [reflexivity|]. right.
    destruct Hsrc as [Hl|[Hc Hall]]; [now left|right].
    split; [exact Hc|]. now rewrite <- Hfu', Hall.
Qed.

End Requests.

(** X6.  A pass requests the ArcGIS endpoint first and then the relays in
    the order of [PROXIES], each at most once and none skipped: the URLs
    it requests form a non-empty initial segment of the ArcGIS endpoint
    followed by the relays' target URLs. *)
Theorem fetchLiveCameras_request_order (h : Host) (s : State) :
  exists cams s' d n,
    fetchLiveCameras h s = (Ok cams, s') /\
    trace s' = (trace s ++ d)%list /\
    fetchedUrls d = firstn (S n) (ARCGIS_ENDPOINT :: map targetUrl PROXIES).
Proof.
  destruct (fetchLiveCameras_shape h s) as (cams & s' & d & n & E & Ht & Hfu & _).
  exists cams, s', d, n. repeat split; assumption.
Qed.

(** X7.  When a returned record is authoritative, the pass made the ArcGIS
    request and no other: its trace is the opening line, that request and
    the success line, and every returned record is authoritative. *)
Theorem authoritative_result_single_request
    (h : Host) (s s' : State) (cams : list TrafficCamera) (cam : TrafficCamera) :
  fetchLiveCameras h s = (Ok cams, s') ->
  In cam cams ->
  source cam = "NZTA ArcGIS (Authoritative)" ->
  trace s' = (trace s ++
              [ConsoleLog "Initiating Traffic Matrix Sync (ArcGIS + REST v4)...";
               FetchCall ARCGIS_ENDPOINT;
               ConsoleLog ("Synchronization Successful: " ++ ofNat (List.length cams)
                           ++ " authoritative nodes from ArcGIS")])%list /\
  Forall (fun c => source c = "NZTA ArcGIS (Authoritative)") cams.
Proof.
  intros E Hin Hsrc.
  destruct (fetchLiveCameras_shape h s) as (cams0 & s0 & d & n & E0 & Ht & _ & Hcase).
  rewrite E in E0. inversion E0; subst cams0 s0. clear E0.
  destruct Hcase as [[Hall ->]|[[_ Hall]|[-> _]]].
  - split; assumption.
  - rewrite Forall_forall in Hall. rewrite (Hall _ Hin) in Hsrc. discriminate.
  - repeat (destruct Hin as [<-|Hin]; [discriminate Hsrc|]). destruct Hin.
Qed.

(** X7, on a runtime whose ArcGIS endpoint answers with one feature. *)
Lemma authoritative_result_single_request_witness :
  exists cams s',
    fetchLiveCameras (Sample.arcGisOnly Sample.nullIsland) Sample.start = (Ok cams, s') /\
    fetchedUrls (trace s') = [ARCGIS_ENDPOINT] /\
    Forall (fun c => source c = "NZTA ArcGIS (Authoritative)") cams.
Proof.
  pose (run := fetchLiveCameras (Sample.arcGisOnly Sample.nullIsland) Sample.start).
  pose (cams := match fst run with Ok l => l | Throw _ => [] end).
  pose (cam := hd (mkCamera "" JNull JNull "" JNull JNull JNull JNull [] "" "" ""
                     None None 0%float "") cams).
  assert (E : run = (Ok cams, snd run)) by (vm_compute; reflexivity).
  assert (Hin : In cam cams) by (vm_compute; left; reflexivity).
  assert (Hsrc : source cam = "NZTA ArcGIS (Authoritative)") by (vm_compute; reflexivity).
  destruct (authoritative_result_single_request _ _ _ _ _ E Hin Hsrc) as [Ht Hall].
  exists cams, (snd run). split; [exact E|]. split; [|exact Hall].
  rewrite Ht. reflexivity.
Defined.

(** X8.  When a returned record is from the static dataset, the result is
    the static dataset as a whole, and the pass has requested the ArcGIS
    endpoint and then every relay, in order. *)
Theorem fallback_after_all_requests
    (h : Host) (s s' : State) (cams : list TrafficCamera) (cam : TrafficCamera) :
  fetchLiveCameras h s = (Ok cams, s') ->
  In cam cams ->
  source cam = "Static Matrix Fallback" ->
  cams = FALLBACK_CAMERAS h /\
  exists d, trace s' = (trace s ++ d)%list /\
            fetchedUrls d = ARCGIS_ENDPOINT :: map targetUrl PROXIES.
Proof.
  intros E Hin Hsrc.
  destruct (fetchLiveCameras_shape h s) as (cams0 & s0 & d & n & E0 & Ht & _ & Hcase).
  rewrite E in E0. inversion E0; subst cams0 s0. clear E0.
  destruct Hcase as [[Hall _]|[[_ Hall]|[-> Hfu]]].
  - rewrite Forall_forall in Hall. rewrite (Hall _ Hin) in Hsrc. discriminate.
  - rewrite Forall_forall in Hall. rewrite (Hall _ Hin) in Hsrc. discriminate.
  - split; [reflexivity|]. exists d. split; assumption.
Qed.

(** X8, on a runtime without network. *)
Lemma fallback_after_all_requests_witness :
  exists cams s',
    fetchLiveCameras Sample.offline Sample.start = (Ok cams, s') /\
    cams = FALLBACK_CAMERAS Sample.offline /\
    exists d, trace s' = (trace Sample.start ++ d)%list /\
              fetchedUrls d = ARCGIS_ENDPOINT :: map targetUrl PROXIES.
Proof.
  pose (run := fetchLiveCameras Sample.offline Sample.start).
  pose (cams := match fst run with Ok l => l | Throw _ => [] end).
  pose (cam := hd (mkCamera "" JNull JNull "" JNull JNull JNull JNull [] "" "" ""
                     None None 0%float "") cams).
  assert (E : run = (Ok cams, snd run)) by (vm_compute; reflexivity).
  assert (Hin : In cam cams) by (vm_compute; left; reflexivity).
  assert (Hsrc : source cam = "Static Matrix Fallback") by (vm_compute; reflexivity).
  exists cams, (snd run). split; [exact E|].
  exact (fallback_after_all_requests _ _ _ _ _ E Hin Hsrc).
Defined.

(** X9.  The records of one pass all come from one source: there is no
    pass that mixes authoritative, legacy and static records. *)
Theorem result_single_source (h : Host) (s : State) :
  exists cams s' src,
    fetchLiveCameras h s = (Ok cams, s') /\
    In src ["NZTA ArcGIS (Authoritative)"; "TrafficNZ REST v4"; "Static Matrix Fallback"] /\
    Forall (fun cam => source cam = src) cams.
Proof.
  destruct (fetchLiveCameras_shape h s) as (cams & s' & d & n & E & _ & _ & Hcase).
  destruct Hcase as [[Hall _]|[[_ Hall]|[-> _]]].
  - exists cams, s', "NZTA ArcGIS (Authoritative)". cbn [In]. auto.
  - exists cams, s', "TrafficNZ REST v4". cbn [In]. auto.
  - exists (FALLBACK_CAMERAS h), s', "Static Matrix Fallback". cbn [In].
    split; [exact E|]. split; [auto|]. repeat constructor.
Qed.

(** X10.  A relay that answers with a status that is not OK is skipped:
    the iteration logs the status and returns, whatever the response
    body is; the body is not read and nothing is parsed. *)
Theorem tryProxy_not_ok
    (h : Host) (proxy : Proxy.ProxyConfig) (s : State) (response : Response.t) :
  fetch h (targetUrl proxy) 12000 = Ok response ->
  Response.ok response = false ->
  tryProxy h proxy s
  = (Ok None,
     mkState (rnd s) (clk s)
       (trace s ++ [FetchCall (targetUrl proxy);
                    ConsoleWarn ("Node " ++ Proxy.url proxy ++ " returned status "
                                 ++ ofNat (Response.status response)
                                 ++ ". Retrying via alternate vector...")])).
Proof.
  intros Hf Hok. unfold tryProxy. run_monad. rewrite Hf. run_monad. rewrite Hok.
  cbn [negb]. run_monad. cbn [rnd clk trace]. now rewrite <- app_assoc.
Qed.

(** X10, on a runtime whose relays answer 502. *)
Lemma tryProxy_not_ok_witness :
  tryProxy Scenario.badGateway (Proxy.mkProxy "https://corsproxy.io/?" Proxy.TextProxy)
    Sample.start
  = (Ok None,
     mkState 0 3
       [FetchCall "https://corsproxy.io/?https://trafficnz.info/service/traffic/rest/4/cameras/all";
        ConsoleWarn "Node https://corsproxy.io/? returned status 502. Retrying via alternate vector..."]).
Proof.
  apply (tryProxy_not_ok Scenario.badGateway
           (Proxy.mkProxy "https://corsproxy.io/?" Proxy.TextProxy) Sample.start
           (Response.make false 502 (Ok JNull) (Ok Sample.htmlPage))).
  - reflexivity.
  - reflexivity.
Defined.

(** X11.  Whatever is thrown inside an iteration of the relay loop (the
    request rejects, the body cannot be read or unwrapped, or the body is
    a truthy value without [trim]) is caught there: the iteration logs
    the error's message and returns, and nothing is parsed. *)
Theorem tryProxy_catches
    (h : Host) (proxy : Proxy.ProxyConfig) (s : State) (e : JsError) :
  (fetch h (targetUrl proxy) 12000 = Throw e \/
   exists response,
     fetch h (targetUrl proxy) 12000 = Ok response /\ Response.ok response = true /\
     (extractBody proxy response = Throw e \/
      exists body, extractBody proxy response = Ok body /\ validate body = Throw e)) ->
  tryProxy h proxy s
  = (Ok None,
     mkState (rnd s) (clk s)
       (trace s ++ [FetchCall (targetUrl proxy);
                    ConsoleWarn ("Connection to " ++ Proxy.url proxy ++ " dropped: "
                                 ++ message e)])).
Proof.
  intros H. unfold tryProxy. run_monad.
  destruct H as [Hf|(response & Hf & Hok & [Hb|(body & Hb & Hv)])];
    rewrite Hf; run_monad; rewrite ?Hok; cbn [negb]; run_monad;
    rewrite ?Hb; run_monad; rewrite ?Hv; run_monad;
    cbn [rnd clk trace]; now rewrite <- app_assoc.
Qed.

(** X11, on a runtime without network. *)
Lemma tryProxy_catches_witness :
  tryProxy Sample.offline (Proxy.mkProxy "https://corsproxy.io/?" Proxy.TextProxy)
    Sample.start
  = (Ok None,
     mkState 0 3
       [FetchCall "https://corsproxy.io/?https://trafficnz.info/service/traffic/rest/4/cameras/all";
        ConsoleWarn "Connection to https://corsproxy.io/? dropped: Failed to fetch"]).
Proof.
  apply (tryProxy_catches Sample.offline
           (Proxy.mkProxy "https://corsproxy.io/?" Proxy.TextProxy) Sample.start
           (TypeError "Failed to fetch")).
  left. reflexivity.
Defined.

(** ** More on [normalizeImageUrl] *)

(** How a prefix test that starts with the pattern's first character fares
    after a replacement. *)
Lemma startsWith_replace_head a pt rp qt s :
  hasChar a qt = false ->
  startsWith (replace s (String a pt) (String a rp)) (String a qt)
  = if startsWith s (String a pt)
    then startsWith (String a rp ++ skip (String.length (String a pt)) s) (String a qt)
    else startsWith s (String a qt).
Proof.
  intros Hq. destruct (startsWith s (String a pt)) eqn:E.
  - now rewrite replace_hit by exact E.
  - destruct s as [|c s]; [reflexivity|].
    rewrite replace_miss by exact E.
    change (startsWith (String c ?r) (String a qt))
      with (Ascii.eqb a c && startsWith r qt).
    now rewrite startsWith_replace by exact Hq.
Qed.

Lemma forceHttps_never_plain s :
  startsWith (forceHttps s) "http://www.trafficnz.info" = false /\
  startsWith (forceHttps s) "http://trafficnz.info" = false.
Proof.
  unfold forceHttps.
  set (Y := replace s "http://www.trafficnz.info" "https://www.trafficnz.info").
  assert (HY : startsWith Y "http://www.trafficnz.info" = false).
  { subst Y.
    rewrite (startsWith_replace_head "h" "ttp://www.trafficnz.info"
               "ttps://www.trafficnz.info" "ttp://www.trafficnz.info") by reflexivity.
    destruct (startsWith s "http://www.trafficnz.info"); reflexivity. }
  split.
  - rewrite (startsWith_replace_head "h" "ttp://trafficnz.info"
               "ttps://www.trafficnz.info" "ttp://www.trafficnz.info") by reflexivity.
    destruct (startsWith Y "http://trafficnz.info"); [reflexivity|exact HY].
  - rewrite (startsWith_replace_head "h" "ttp://trafficnz.info"
               "ttps://www.trafficnz.info" "ttp://trafficnz.info") by reflexivity.
    destruct (startsWith Y "http://trafficnz.info"); reflexivity.
Qed.

(** X12.  Whatever the reference, [normalizeImageUrl] never returns a URL
    that starts with [http://www.trafficnz.info] or
    [http://trafficnz.info]: the canonical host is never addressed over
    plain HTTP. *)
Theorem normalizeImageUrl_never_plain_canonical (u : string) :
  startsWith (normalizeImageUrl u) "http://www.trafficnz.info" = false /\
  startsWith (normalizeImageUrl u) "http://trafficnz.info" = false.
Proof.
  rewrite normalizeImageUrl_eq. destruct (String.eqb u "").
  - split; reflexivity.
  - apply forceHttps_never_plain.
Qed.

(** X13.  [normalizeImageUrl] returns the empty string exactly for the
    empty reference, and for every other reference a string that starts
    with the four letters [http]. *)
Theorem normalizeImageUrl_absolute_or_empty (u : string) :
  String.eqb (normalizeImageUrl u) "" = String.eqb u "" /\
  startsWith (normalizeImageUrl u) "http" = negb (String.eqb u "").
Proof.
  destruct (String.eqb u "") eqn:E0.
  - apply String.eqb_eq in E0. subst u. split; reflexivity.
  - assert (H : startsWith (normalizeImageUrl u) "http" = true).
    { destruct (startsWith u "http") eqn:Eh.
      - pose proof (startsWith_inv _ _ Eh) as E.
        set (u' := skip (String.length "http") u) in E. clearbody u'. subst u.
        rewrite normalizeImageUrl_absolute. apply forceHttps_startsWith_http.
        destruct (negb (includes ("http" ++ u') "trafficnz.info")); [|reflexivity].
        now apply (startsWith_replace_http "ttp://" "ttps://").
      - destruct (normalizeImageUrl_relative u E0 Eh) as (y & -> & _). reflexivity. }
    split; [|exact H].
    apply (startsWith_nonempty _ "http"); [discriminate|exact H].
Qed.

(** X14.  A reference that starts with [https://] and holds no
    ["http://"] is returned as it is, whatever its host. *)
Theorem normalizeImageUrl_keeps_https (u : string) :
  startsWith u "https://" = true ->
  includes u "http://" = false ->
  normalizeImageUrl u = u.
Proof.
  intros Hs Hn. apply normalizeImageUrl_fix; [|exact Hn].
  exact (startsWith_app_l u "http" "s://" Hs).
Qed.

(** X14, on an image of a foreign host. *)
Lemma normalizeImageUrl_keeps_https_witness :
  normalizeImageUrl "https://cdn.example.org/cam/20.jpg" = "https://cdn.example.org/cam/20.jpg".
Proof.
  apply normalizeImageUrl_keeps_https; reflexivity.
Defined.

(** X15.  A non-empty reference that does not start with [http] and holds
    no ["http://"] is resolved against the canonical base: a root-relative
    path directly, anything else below [/camera/images/]. *)
Theorem normalizeImageUrl_resolves_relative (u : string) :
  String.eqb u "" = false ->
  startsWith u "http" = false ->
  includes u "http://" = false ->
  normalizeImageUrl u
  = if startsWith u "/" then "https://trafficnz.info" ++ u
    else "https://trafficnz.info/camera/images/" ++ u.
Proof.
  intros E0 Eh Hn. rewrite normalizeImageUrl_eq, E0, Eh. cbn [andb negb].
  destruct (startsWith u "/") eqn:Es.
  - apply forceHttps_absent.
    pose proof (startsWith_inv _ _ Es) as E.
    set (u' := skip (String.length "/") u) in E. clearbody u'. subst u.
    exact Hn.
  - assert (F : forceHttps ("https://trafficnz.info/camera/images/" ++ u)
                = "https://trafficnz.info/camera/images/" ++ u)
      by (apply forceHttps_absent; exact Hn).
    destruct (digitsJpg false u); exact F.
Qed.

(** X15, on a bare file name and on a root-relative path. *)
Lemma normalizeImageUrl_resolves_relative_witness :
  normalizeImageUrl "20.jpg" = "https://trafficnz.info/camera/images/20.jpg" /\
  normalizeImageUrl "/camera/images/20.jpg" = "https://trafficnz.info/camera/images/20.jpg".
Proof.
  split.
  - apply (normalizeImageUrl_resolves_relative "20.jpg"); reflexivity.
  - apply (normalizeImageUrl_resolves_relative "/camera/images/20.jpg"); reflexivity.
Defined.

(** ** Two more edges of the service *)

Lemma arcGisFeature_throws_on_image h feature :
  imageNotText feature = true ->
  forall s, exists e s', arcGisFeature h feature s = (Throw e, s').
Proof.
  unfold imageNotText, arcGisFeature. intros H s.
  destruct (get feature "properties") as [props|e]; [|discriminate]. run_monad.
  destruct (get props "imageurl") as [img|e1] eqn:Ei; [|discriminate].
  destruct (get props "thumburl") as [thumb|e2] eqn:Et; [|discriminate].
  apply andb_true_iff in H as [Htr Hns].
  assert (Hn : exists e, normalizeImageUrlAny (orVal img thumb) = Throw e).
  { unfold normalizeImageUrlAny. rewrite Htr. cbn [negb].
    destruct (orVal img thumb); try discriminate; eauto. }
  destruct Hn as (e & Hn).
  repeat match goal with
         | |- context [match get ?v ?k with Ok _ => _ | Throw _ => _ end] =>
             destruct (get v k); run_monad
         | |- context [match toStringR ?n ?v with Ok _ => _ | Throw _ => _ end] =>
             destruct (toStringR n v); run_monad
         end.
  all: rewrite ?Hn; eauto.
Qed.

(** X23.  When a feature's image reference is a truthy value that is not
    a string (a number, say), [parseArcGisJson] throws on the whole
    payload, the valid features included. *)
Theorem parseArcGisJson_throws_on_image
    (h : Host) (data : jsval) (items : list jsval) :
  get data "features" = Ok (JArr items) ->
  (exists feature, In feature items /\ imageNotText feature = true) ->
  forall s, exists e s', parseArcGisJson h data s = (Throw e, s').
Proof.
  intros Hfeat (feature & Hin & Hbad) s. unfold parseArcGisJson.
  assert (Ht : truthy data = true) by (destruct data; try discriminate; reflexivity).
  rewrite Ht. cbn [negb]. unfold bind at 1, liftR at 1. rewrite Hfeat.
  cbn [truthy negb].
  apply (mapM_throws _ _ feature Hin). now apply arcGisFeature_throws_on_image.
Qed.

(** X23, on a payload whose second feature has the number 7 as image. *)
Lemma parseArcGisJson_throws_on_image_witness :
  exists e s',
    parseArcGisJson Sample.offline
      (Sample.collection
         [Sample.feature [("id", JStr "7")] (Sample.point 174.7 (-36.8));
          Sample.feature [("id", JStr "8"); ("imageurl", JNum 7%float)]
            (Sample.point 174.7 (-36.8))])
      Sample.start = (Throw e, s').
Proof.
  apply (parseArcGisJson_throws_on_image Sample.offline _
           [Sample.feature [("id", JStr "7")] (Sample.point 174.7 (-36.8));
            Sample.feature [("id", JStr "8"); ("imageurl", JNum 7%float)]
              (Sample.point 174.7 (-36.8))]).
  - reflexivity.
  - eexists. split; [right; left; reflexivity|reflexivity].
Defined.

(** X22.  A relay body that is a non-empty string and, once trimmed,
    starts with neither [<!DOCTYPE html] nor [<html] is handed to
    [DOMParser] once, as it was received (untrimmed); so is a body of
    white space only, or a page that starts with a lower-case doctype. *)
Theorem tryProxy_parses_other_bodies
    (h : Host) (proxy : Proxy.ProxyConfig) (s : State) (response : Response.t)
    (t : string) :
  fetch h (targetUrl proxy) 12000 = Ok response ->
  Response.ok response = true ->
  extractBody proxy response = Ok (JStr t) ->
  String.eqb t "" = false ->
  startsWith (trim t) "<!DOCTYPE html" = false ->
  startsWith (trim t) "<html" = false ->
  exists o s' d,
    tryProxy h proxy s = (Ok o, s') /\
    trace s' = (trace s ++ FetchCall (targetUrl proxy) :: d)%list /\
    parsedTexts d = [t].
Proof.
  intros Hf Hok Hb Hne H1 H2.
  assert (Hv : validate (JStr t) = Ok (Some t)).
  { unfold validate. cbn [truthy]. rewrite Hne, H1, H2. reflexivity. }
  unfold tryProxy. run_monad. rewrite Hf. run_monad. rewrite Hok. cbn [negb].
  run_monad. rewrite Hb. run_monad. rewrite Hv. run_monad.
  match goal with |- context [parseTrafficXml h t ?s0] =>
    destruct (parseTrafficXml_shape h t s0)
      as (parsed & s2 & d & P & Ht & _ & Hpt & _) end.
  rewrite P. run_monad. cbn [trace] in Ht.
  destruct (0 <? List.length parsed); run_monad.
  - eexists (Some parsed), _, (d ++ [ConsoleLog _])%list. cbn [rnd clk trace].
    split; [reflexivity|]. rewrite Ht, <- !app_assoc. cbn [app].
    split; [reflexivity|]. rewrite parsedTexts_app, Hpt. reflexivity.
  - eexists None, _, d. split; [reflexivity|]. rewrite Ht, <- app_assoc.
    split; [reflexivity|exact Hpt].
Qed.

(** X22, on a relay that answers with a lower-case HTML page. *)
Lemma tryProxy_parses_other_bodies_witness :
  exists o s' d,
    tryProxy
      (Sample.host
         (fun _ => Ok (Response.make true 200 (Ok JNull) (Ok "<!doctype html><html></html>")))
         Sample.dom)
      (Proxy.mkProxy "https://corsproxy.io/?" Proxy.TextProxy) Sample.start
    = (Ok o, s') /\
    trace s' = (trace Sample.start
                ++ FetchCall (targetUrl (Proxy.mkProxy "https://corsproxy.io/?" Proxy.TextProxy))
                   :: d)%list /\
    parsedTexts d = ["<!doctype html><html></html>"].
Proof.
  apply (tryProxy_parses_other_bodies _ _ _
           (Response.make true 200 (Ok JNull) (Ok "<!doctype html><html></html>")));
    reflexivity.
Defined.

(* ================================================================== *)
(** * Properties of the map component *)
(* ================================================================== *)

Lemma mapR_length {A B} (f : A -> Result B) l bs :
  mapR f l = Ok bs -> List.length bs = List.length l.
Proof.
  revert bs; induction l as [|a l IH]; intros bs H.
  - inversion H. reflexivity.
  - cbn [mapR] in H. unfold bindR in H.
    destruct (f a) as [b|e]; [|discriminate].
    destruct (mapR f l) as [bs0|e]; [|discriminate].
    inversion H. cbn [List.length]. now rewrite (IH bs0 eq_refl).
Qed.

Lemma mapR_throws {A B} (f : A -> Result B) l a :
  In a l -> (exists e, f a = Throw e) -> exists e, mapR f l = Throw e.
Proof.
  intros Ha (e & He). induction l as [|x l IH]; [destruct Ha|].
  cbn [mapR]. unfold bindR. destruct Ha as [->|Ha].
  - rewrite He. eauto.
  - destruct (f x) as [b|e0]; [|eauto].
    destruct (IH Ha) as (e1 & ->). eauto.
Qed.

Lemma mapR_Forall2 {A B} (f : A -> Result B) l bs :
  mapR f l = Ok bs -> Forall2 (fun a b => f a = Ok b) l bs.
Proof.
  revert bs; induction l as [|a l IH]; intros bs H.
  - inversion H. constructor.
  - cbn [mapR] in H. unfold bindR in H.
    destruct (f a) as [b|e] eqn:E; [|discriminate].
    destruct (mapR f l) as [bs0|e]; [|discriminate].
    inversion H. constructor; [exact E|now apply IH].
Qed.

(** X16.  Every point [normalizeIncidents] returns has a latitude and a
    longitude that are not [NaN], and it returns at most one point per
    entry of the list it reads. *)
Theorem normalizeIncidents_never_NaN
    (m : MathHost) (data : jsval) (pts : list Map.Point) :
  Map.normalizeIncidents m data = Ok pts ->
  Forall (fun p => JsNumber.isNaN (Map.latitude p) = false /\
                   JsNumber.isNaN (Map.longitude p) = false) pts /\
  List.length pts <= List.length (Map.incidentList data).
Proof.
  unfold Map.normalizeIncidents. intros H.
  destruct (negb (truthy data)).
  - inversion H. split; [constructor|apply Nat.le_0_l].
  - unfold bindR in H.
    destruct (mapR (Map.incidentOf m) (Map.incidentList data)) as [all|e] eqn:E;
      [|discriminate].
    inversion H; subst pts. clear H. split.
    + apply Forall_forall. intros p Hp. apply filter_In in Hp as [_ Hp].
      apply andb_true_iff in Hp as [H1 H2].
      split; now apply negb_true_iff.
    + rewrite <- (mapR_length _ _ _ E). apply filter_length_le.
Qed.

(** X16, on a list with one numeric entry and one whose latitude is
    missing. *)
Lemma normalizeIncidents_never_NaN_witness :
  exists pts,
    Map.normalizeIncidents Map.sampleMath
      (JArr [JObj [("latitude", JNum (-36.8)%float); ("longitude", JNum 174.7%float)];
             JObj [("longitude", JNum 174.7%float)]]) = Ok pts /\
    Forall (fun p => JsNumber.isNaN (Map.latitude p) = false /\
                     JsNumber.isNaN (Map.longitude p) = false) pts /\
    List.length pts <= 2.
Proof.
  eexists. split; [vm_compute; reflexivity|].
  apply (normalizeIncidents_never_NaN Map.sampleMath
           (JArr [JObj [("latitude", JNum (-36.8)%float); ("longitude", JNum 174.7%float)];
                  JObj [("longitude", JNum 174.7%float)]])).
  vm_compute. reflexivity.
Defined.

(** X17.  [normalizeIncidents] reads an envelope [{incidents: [...]}] and
    the bare array alike: both give the same result. *)
Theorem normalizeIncidents_envelope
    (m : MathHost) (fields : list (string * jsval)) (l : list jsval) :
  lookup "incidents" fields = JArr l ->
  Map.normalizeIncidents m (JObj fields) = Map.normalizeIncidents m (JArr l).
Proof.
  intros H. unfold Map.normalizeIncidents, Map.incidentList. cbn [truthy negb Map.optGet].
  now rewrite H.
Qed.

(** X17, on an envelope with a second entry beside [incidents]. *)
Lemma normalizeIncidents_envelope_witness :
  Map.normalizeIncidents Map.sampleMath
    (JObj [("count", JNum 1%float);
           ("incidents", JArr [JObj [("lat", JStr "-36.8"); ("lng", JStr "174.7")]])])
  = Map.normalizeIncidents Map.sampleMath
      (JArr [JObj [("lat", JStr "-36.8"); ("lng", JStr "174.7")]]).
Proof.
  apply normalizeIncidents_envelope. reflexivity.
Defined.

(** X18.  A [null] entry makes either normalizer throw: the callbacks read
    a property of each entry before any check. *)
Theorem normalizers_throw_on_null (m : MathHost) (l : list jsval) :
  In JNull l ->
  (exists e, Map.normalizeIncidents m (JArr l) = Throw e) /\
  (exists e, Map.normalizeArcGISCameras m (JObj [("features", JArr l)]) = Throw e).
Proof.
  intros Hin. split.
  - unfold Map.normalizeIncidents, Map.incidentList. cbn [truthy negb Map.optGet].
    destruct (mapR_throws (Map.incidentOf m) l JNull Hin) as (e & ->).
    + eexists. reflexivity.
    + cbn [bindR]. eauto.
  - unfold Map.normalizeArcGISCameras. cbn [Map.optGet lookup String.eqb Ascii.eqb Bool.eqb].
    destruct (mapR_throws (Map.cameraPointOf m) l JNull Hin) as (e & ->).
    + eexists. reflexivity.
    + cbn [bindR]. eauto.
Qed.

(** X18, on a list whose second entry is [null]. *)
Lemma normalizers_throw_on_null_witness :
  (exists e, Map.normalizeIncidents Map.sampleMath
               (JArr [JObj [("lat", JStr "-36.8")]; JNull]) = Throw e) /\
  (exists e, Map.normalizeArcGISCameras Map.sampleMath
               (JObj [("features", JArr [JObj [("lat", JStr "-36.8")]; JNull])]) = Throw e).
Proof.
  apply normalizers_throw_on_null. right. left. reflexivity.
Defined.

Lemma cameraPointOf_some_iff m f o :
  Map.cameraPointOf m f = Ok o ->
  truthy (Map.optGet f "geometry") = match o with Some _ => true | None => false end.
Proof.
  unfold Map.cameraPointOf, bindR.
  destruct f; cbn [get Map.optGet]; try discriminate;
    match goal with |- context [negb (truthy ?g)] => destruct (truthy g) end;
    cbn [negb]; try (intros [= <-]; reflexivity);
    repeat match goal with
           | |- context [match ?r with Ok _ => _ | Throw _ => _ end] =>
               destruct r; try discriminate
           end;
    intros [= <-]; reflexivity.
Qed.

(** X19.  When [normalizeArcGISCameras] succeeds on a payload whose
    [features] is an array, it returns one point for each feature with a
    truthy [geometry] and silently leaves out the others. *)
Theorem normalizeArcGISCameras_skips_missing_geometry
    (m : MathHost) (data : jsval) (items : list jsval) (pts : list Map.Point) :
  Map.optGet data "features" = JArr items ->
  Map.normalizeArcGISCameras m data = Ok pts ->
  List.length pts
  = List.length (filter (fun f => truthy (Map.optGet f "geometry")) items).
Proof.
  intros Hfeat. unfold Map.normalizeArcGISCameras. rewrite Hfeat. unfold bindR.
  destruct (mapR (Map.cameraPointOf m) items) as [os|e] eqn:E; [|discriminate].
  intros [= <-]. apply mapR_Forall2 in E. clear Hfeat.
  induction E as [|f o items os Hf _ IH]; [reflexivity|].
  apply cameraPointOf_some_iff in Hf. cbn [filter]. rewrite Hf.
  destruct o; cbn [Map.dropNull List.length]; now rewrite IH.
Qed.

(** X19, on a feature at the origin followed by one without geometry. *)
Lemma normalizeArcGISCameras_skips_missing_geometry_witness :
  exists pts,
    Map.normalizeArcGISCameras Map.sampleMath
      (JObj [("features",
              JArr [JObj [("geometry", JObj [("x", JNum 0%float); ("y", JNum 0%float)]);
                          ("attributes", JObj [("name", JStr "SH1")])];
                    JObj [("attributes", JObj [("name", JStr "SH2")])]])]) = Ok pts /\
    List.length pts = 1.
Proof.
  eexists. split; [vm_compute; reflexivity|].
  apply (normalizeArcGISCameras_skips_missing_geometry Map.sampleMath
           (JObj [("features",
              JArr [JObj [("geometry", JObj [("x", JNum 0%float); ("y", JNum 0%float)]);
                          ("attributes", JObj [("name", JStr "SH1")])];
                    JObj [("attributes", JObj [("name", JStr "SH2")])]])])
           [JObj [("geometry", JObj [("x", JNum 0%float); ("y", JNum 0%float)]);
                  ("attributes", JObj [("name", JStr "SH1")])];
            JObj [("attributes", JObj [("name", JStr "SH2")])]]).
  - reflexivity.
  - vm_compute. reflexivity.
Defined.

(** X20.  A payload that holds no list gives the empty result, without an
    exception: [normalizeIncidents] on anything that is neither an array
    nor has an [incidents] array (whatever else it holds),
    [normalizeArcGISCameras] on anything without a [features] array (an
    array payload included). *)
Theorem normalizers_empty_without_list (m : MathHost) (data : jsval) :
  ((forall l, data <> JArr l) ->
   (forall l, Map.optGet data "incidents" <> JArr l) ->
   Map.normalizeIncidents m data = Ok []) /\
  ((forall l, Map.optGet data "features" <> JArr l) ->
   Map.normalizeArcGISCameras m data = Ok []).
Proof.
  split.
  - intros Harr Hinc. unfold Map.normalizeIncidents, Map.incidentList.
    destruct (negb (truthy data)); [reflexivity|].
    destruct (Map.optGet data "incidents") eqn:E;
      try (destruct data; try reflexivity; exfalso; eapply Harr; reflexivity).
    exfalso. eapply Hinc. reflexivity.
  - intros Hfeat. unfold Map.normalizeArcGISCameras.
    destruct (Map.optGet data "features") eqn:E; try reflexivity.
    exfalso. eapply Hfeat. reflexivity.
Qed.

(** X20, on a feature collection given to [normalizeIncidents], on an
    array given to [normalizeArcGISCameras], and on the payload [null],
    which both callers pass when a response was not OK. *)
Lemma normalizers_empty_without_list_witness :
  Map.normalizeIncidents Map.sampleMath (JObj [("features", JArr [JNull])]) = Ok [] /\
  Map.normalizeArcGISCameras Map.sampleMath (JArr [JNull]) = Ok [] /\
  Map.normalizeIncidents Map.sampleMath JNull = Ok [] /\
  Map.normalizeArcGISCameras Map.sampleMath JNull = Ok [].
Proof.
  split; [|split; [|split]].
  - apply (proj1 (normalizers_empty_without_list Map.sampleMath
                    (JObj [("features", JArr [JNull])]))); intros l; discriminate.
  - apply (proj2 (normalizers_empty_without_list Map.sampleMath (JArr [JNull])));
      intros l; discriminate.
  - apply (proj1 (normalizers_empty_without_list Map.sampleMath JNull));
      intros l; discriminate.
  - apply (proj2 (normalizers_empty_without_list Map.sampleMath JNull));
      intros l; discriminate.
Defined.

(* ================================================================== *)
(** * Properties of the service worker *)
(* ================================================================== *)

Section ActivateFacts.

Variable Cache : Type.

Lemma purge_all (names : list string) :
  forall (st : ServiceWorker.CacheStorage Cache) (tr : list event),
    fst (fold_left (ServiceWorker.purge Cache) names (st, tr))
    = filter (fun kv => String.eqb (fst kv) ServiceWorker.CACHE_NAME
                        || negb (existsb (String.eqb (fst kv)) names)) st /\
    List.length (snd (fold_left (ServiceWorker.purge Cache) names (st, tr)))
    = List.length tr
      + List.length (filter (fun n => negb (String.eqb n ServiceWorker.CACHE_NAME)) names).
Proof.
  induction names as [|n names IH]; intros st tr.
  - cbn [fold_left fst snd filter existsb List.length]. split; [|lia].
    induction st as [|kv st IHst]; [reflexivity|].
    cbn [filter]. rewrite orb_true_r. now rewrite <- IHst.
  - cbn [fold_left filter]. unfold ServiceWorker.purge at 2 4.
    destruct (negb (String.eqb n ServiceWorker.CACHE_NAME)) eqn:En; cbn [fst snd].
    + destruct (IH (ServiceWorker.delete Cache n st)
                   (tr ++ [ConsoleLog "Matrix Purge: Removing deprecated data clusters"])%list)
        as [IH1 IH2].
      rewrite IH1, IH2. split.
      * unfold ServiceWorker.delete. clear - En.
        induction st as [|kv st IHst]; [reflexivity|].
        cbn [filter existsb].
        destruct (String.eqb (fst kv) n) eqn:Ek; cbn [negb orb].
        -- apply String.eqb_eq in Ek. rewrite Ek.
           apply negb_true_iff in En. rewrite En. cbn [orb]. exact IHst.
        -- cbn [filter]. destruct (_ || _); [now rewrite IHst|exact IHst].
      * rewrite length_app. cbn [List.length]. lia.
    + destruct (IH st tr) as [IH1 IH2]. rewrite IH1, IH2. split; [|reflexivity].
      apply negb_false_iff, String.eqb_eq in En. subst n. clear.
      induction st as [|kv st IHst]; [reflexivity|].
      cbn [filter existsb].
      destruct (String.eqb (fst kv) ServiceWorker.CACHE_NAME); cbn [orb negb];
        [now rewrite IHst|].
      destruct (negb (existsb (String.eqb (fst kv)) names)); [now rewrite IHst|exact IHst].
Qed.

End ActivateFacts.

(** X21.  After activation the storage holds the cache named
    [traffic-os-v1], untouched, and no other cache; one line is logged for
    each cache that was removed. *)
Theorem activate_keeps_current_only
    (Cache : Type) (store : ServiceWorker.CacheStorage Cache) :
  fst (ServiceWorker.activate Cache store)
  = filter (fun kv => String.eqb (fst kv) ServiceWorker.CACHE_NAME) store /\
  List.length (snd (ServiceWorker.activate Cache store))
  = List.length (filter (fun kv => negb (String.eqb (fst kv) ServiceWorker.CACHE_NAME)) store).
Proof.
  unfold ServiceWorker.activate, ServiceWorker.keys.
  destruct (purge_all Cache (map fst store) store []) as [H1 H2].
  rewrite H1, H2. cbn [List.length Nat.add]. split.
  - apply filter_ext_in. intros kv Hin.
    assert (E : existsb (String.eqb (fst kv)) (map fst store) = true).
    { apply existsb_exists. exists (fst kv). split; [now apply in_map|apply String.eqb_refl]. }
    rewrite E. cbn [negb]. apply orb_false_r.
  - clear. induction store as [|kv st IH]; [reflexivity|].
    cbn [map filter]. destruct (negb (String.eqb (fst kv) ServiceWorker.CACHE_NAME));
      cbn [List.length]; now rewrite IH.
Qed.
